(** * wx: NOAA GSOD station parser and assembler (src/main.py)

    A shallow embedding of the parsing and data-assembly core of
    [src/main.py] (Python 2), with the properties its specification
    states about it.

    Conventions of the embedding.
    - Text lines are byte strings ([string], 8-bit [ascii]); white space
      is the C locale's, as [int] and [float] use on byte strings.  The
      station listing, which the request hands over as decoded text, is
      read the same way; the two readings agree on [plain_text], which
      the properties about the line a code selects assume.
    - A Python exception is a value of [exn]; a computation that may raise
      returns a [result].  [try: ... except ValueError:] catches
      [ValueError] only, [except Exception:] catches every [exn].
    - A Python float is a [pyfloat]: a finite value carried as the exact
      rational its literal denotes, an infinity, or not-a-number.  Rounding
      to binary64 is not modelled; the properties below rest only on order
      comparisons and on which values are not-a-number.  A temperature
      slice has at most six characters, too few to write a value that
      rounding could carry across 9000.  The one aggregate that adds
      floats, the mean of pandas, is a collaborator [series_mean].
    - The network and gzip are a collaborator [fetch], from a URL to the
      decompressed body or the exception that propagates.
    - [logging] is a list of emitted messages threaded through the code. *)

From Stdlib Require Import List String Ascii ZArith QArith Lia Bool.
From Stdlib Require Import DecimalString DecimalN Sorted.
Import ListNotations.

Open Scope string_scope.
Open Scope Z_scope.

(** ** Exceptions and results *)

Inductive exn : Type :=
| ValueError
| OverflowError
| ZeroDivisionError
| TypeError
| AttributeError
| Exception_ (msg : string).

Inductive result (A : Type) : Type :=
| Ok (v : A)
| Err (e : exn).
Arguments Ok {A} v.
Arguments Err {A} e.

Definition bind {A B} (r : result A) (k : A -> result B) : result B :=
  match r with
  | Ok v => k v
  | Err e => Err e
  end.

Notation "x <- c ;; k" := (bind c (fun x => k))
  (at level 61, c at next level, right associativity).
Notation "' pat <- c ;; k" := (bind c (fun x => match x with pat => k end))
  (at level 61, pat pattern, c at next level, right associativity).

(** [try: body / except ValueError: handler]. *)
Definition except_ValueError {A} (body handler : result A) : result A :=
  match body with
  | Err ValueError => handler
  | r => r
  end.

Definition is_ok {A} (r : result A) : bool :=
  match r with Ok _ => true | Err _ => false end.

Definition to_option {A} (r : result A) : option A :=
  match r with Ok v => Some v | Err _ => None end.

(** ** Strings: slices, white space, digits *)

(** [s[a:b]] for constant [0 <= a <= b]; a slice past the end is clipped,
    never an error. *)
Definition slice (a b : nat) (s : string) : string :=
  substring a (b - a) s.

Definition is_space (c : ascii) : bool :=
  let n := N_of_ascii c in
  (N.eqb n 32 || (N.leb 9 n && N.leb n 13))%bool.

Definition is_digit (c : ascii) : bool :=
  let n := N_of_ascii c in (N.leb 48 n && N.leb n 57)%bool.

Definition digit_val (c : ascii) : Z := Z.of_N (N_of_ascii c) - 48.

Fixpoint lstrip (s : string) : string :=
  match s with
  | String c s' => if is_space c then lstrip s' else s
  | EmptyString => s
  end.

Fixpoint all_space (s : string) : bool :=
  match s with
  | String c s' => (is_space c && all_space s')%bool
  | EmptyString => true
  end.

(** The longest prefix of decimal digits, accumulated onto [acc], with the
    number of digits read and the text left. *)
Fixpoint read_digits (acc : Z) (n : nat) (s : string) : Z * nat * string :=
  match s with
  | String c s' =>
      if is_digit c then read_digits (10 * acc + digit_val c) (S n) s'
      else (acc, n, s)
  | EmptyString => (acc, n, s)
  end.

Definition read_sign (s : string) : bool * string :=
  match s with
  | String "-" r => (true, r)
  | String "+" r => (false, r)
  | _ => (false, s)
  end.

(** ** [int(s)] on a string, base 10 *)

Definition py_int (s : string) : result Z :=
  let '(neg, s1) := read_sign (lstrip s) in
  let '(v, n, rest) := read_digits 0 0 s1 in
  match n with
  | O => Err ValueError
  | S _ => if all_space rest then Ok (if neg then - v else v)
           else Err ValueError
  end.

(** ** Floats *)

Inductive pyfloat : Type :=
| FNum (q : Q)
| FInf (neg : bool)
| FNaN.

Definition nan : pyfloat := FNaN.

Definition is_nan (x : pyfloat) : bool :=
  match x with FNaN => true | _ => false end.

(** IEEE comparisons: every comparison with not-a-number is false. *)
Definition flt (x y : pyfloat) : bool :=
  match x, y with
  | FNaN, _ | _, FNaN => false
  | FNum a, FNum b => match Qcompare a b with Lt => true | _ => false end
  | FNum _, FInf neg => negb neg
  | FInf neg, FNum _ => neg
  | FInf a, FInf b => (a && negb b)%bool
  end.

Definition fle (x y : pyfloat) : bool :=
  match x, y with
  | FNaN, _ | _, FNaN => false
  | FNum a, FNum b => match Qcompare a b with Gt => false | _ => true end
  | FNum _, FInf neg => negb neg
  | FInf neg, FNum _ => neg
  | FInf a, FInf b => (a || negb b)%bool
  end.

Definition fge (x y : pyfloat) : bool := fle y x.

Definition Qsign_neg (q : Q) : bool :=
  match Qcompare q 0 with Lt => true | _ => false end.

Definition Qis_zero (q : Q) : bool :=
  match Qcompare q 0 with Eq => true | _ => false end.

(** [x / y] on floats; a zero divisor raises. *)
Definition py_fdiv (x y : pyfloat) : result pyfloat :=
  match y with
  | FNum b =>
      if Qis_zero b then Err ZeroDivisionError
      else match x with
           | FNum a => Ok (FNum (Qred (a / b)))
           | FInf n => Ok (FInf (xorb n (Qsign_neg b)))
           | FNaN => Ok FNaN
           end
  | FInf _ =>
      match x with
      | FNum _ => Ok (FNum 0)
      | _ => Ok FNaN
      end
  | FNaN => Ok FNaN
  end.

Definition pow10 (e : Z) : Q :=
  if 0 <=? e then inject_Z (10 ^ e) else 1 # Z.to_pos (10 ^ (- e)).

Definition lower (c : ascii) : ascii :=
  let n := N_of_ascii c in
  if (N.leb 65 n && N.leb n 90)%bool then ascii_of_N (n + 32) else c.

(** [strip_prefix_ci p s]: what follows [p] in [s], letter case ignored
    ([p] is given in lower case). *)
Fixpoint strip_prefix_ci (p s : string) : option string :=
  match p, s with
  | EmptyString, _ => Some s
  | String a p', String c s' =>
      if Ascii.eqb a (lower c) then strip_prefix_ci p' s' else None
  | String _ _, EmptyString => None
  end.

(** The optional exponent of a decimal literal.  An [e] that no digit
    follows is not part of the number: it stays in the text left. *)
Definition read_exponent (s : string) : Z * string :=
  match s with
  | String c r =>
      if Ascii.eqb (lower c) "e" then
        let '(neg, r1) := read_sign r in
        let '(v, n, rest) := read_digits 0 0 r1 in
        match n with
        | O => (0, s)
        | S _ => (if neg then - v else v, rest)
        end
      else (0, s)
  | EmptyString => (0, s)
  end.

(** The optional fraction of a decimal literal: a point and the digits
    after it, accumulated onto the integer part [ip]. *)
Definition read_fraction (ip : Z) (s : string) : Z * nat * string :=
  match s with
  | String c r => if Ascii.eqb c "." then read_digits ip 0 r else (ip, O, s)
  | EmptyString => (ip, O, s)
  end.

(** [float(s)] on a string. *)
Definition py_float (s : string) : result pyfloat :=
  let '(neg, s1) := read_sign (lstrip s) in
  match strip_prefix_ci "infinity" s1 with
  | Some rest => if all_space rest then Ok (FInf neg) else Err ValueError
  | None =>
  match strip_prefix_ci "inf" s1 with
  | Some rest => if all_space rest then Ok (FInf neg) else Err ValueError
  | None =>
  match strip_prefix_ci "nan" s1 with
  | Some rest => if all_space rest then Ok FNaN else Err ValueError
  | None =>
      let '(ip, ni, s2) := read_digits 0 0 s1 in
      let '(m, nf, s3) := read_fraction ip s2 in
      match (ni + nf)%nat with
      | O => Err ValueError
      | S _ =>
          let '(e, rest) := read_exponent s3 in
          if all_space rest then
            let v := Qred (inject_Z m * pow10 (e - Z.of_nat nf)) in
            Ok (FNum (if neg then Qred (- v) else v))
          else Err ValueError
      end
  end end end.

(** ** Calendar dates ([datetime.date]) *)

Record date : Type := mkdate { year : Z; month : Z; day : Z }.

Definition is_leap (y : Z) : bool :=
  ((y mod 4 =? 0) && (negb (y mod 100 =? 0) || (y mod 400 =? 0)))%bool.

Definition days_in_month (y m : Z) : Z :=
  match m with
  | 2 => if is_leap y then 29 else 28
  | 4 | 6 | 9 | 11 => 30
  | _ => 31
  end.

(** Whether an integer fits the C [int] the constructor converts to. *)
Definition fits_c_int (z : Z) : bool :=
  ((- 2147483648 <=? z) && (z <=? 2147483647))%bool.

(** [datetime.date(y, m, d)]: an argument that does not fit a C int
    raises [OverflowError], a date that does not exist [ValueError]. *)
Definition datetime_date (y m d : Z) : result date :=
  if negb (fits_c_int y && fits_c_int m && fits_c_int d) then
    Err OverflowError
  else if ((1 <=? y) && (y <=? 9999) && (1 <=? m) && (m <=? 12)
           && (1 <=? d) && (d <=? days_in_month y m))%bool then
    Ok (mkdate y m d)
  else Err ValueError.

Fixpoint days_before (y : Z) (months : nat) : Z :=
  match months with
  | O => 0
  | S k => days_before y k + days_in_month y (Z.of_nat (S k))
  end.

(** [date.timetuple()[7]], the day of the year, 1-based. *)
Definition tm_yday (d : date) : Z :=
  days_before (year d) (Z.to_nat (month d - 1)) + day d.

(** ** [%] formatting of integers *)

Definition digits_of (z : Z) : string :=
  NilZero.string_of_uint (N.to_uint (Z.abs_N z)).

Fixpoint zeros (n : nat) : string :=
  match n with
  | O => EmptyString
  | S k => String "0" (zeros k)
  end.

(** ["%0<width>d" % z]: the sign, then the digits padded with zeros on the
    left up to [width] characters in all. *)
Definition format_0d (width : nat) (z : Z) : string :=
  let sign := if z <? 0 then "-" else "" in
  let ds := digits_of z in
  sign ++ zeros (width - String.length sign - String.length ds) ++ ds.

(** ["%s" % z] for an integer. *)
Definition format_s (z : Z) : string :=
  (if z <? 0 then "-" else "") ++ digits_of z.

(** A [%d] conversion of an argument that may be [None]: [None] is not a
    number and raises [TypeError]. *)
Definition py_format_0d (width : nat) (arg : option Z) : result string :=
  match arg with
  | Some z => Ok (format_0d width z)
  | None => Err TypeError
  end.

(** [str.split('\n')]. *)
Fixpoint split_nl (s : string) : list string :=
  match s with
  | EmptyString => [EmptyString]
  | String c s' =>
      if Ascii.eqb c "010" then EmptyString :: split_nl s'
      else match split_nl s' with
           | h :: t => String c h :: t
           | [] => [String c EmptyString]
           end
  end.

(** ** The program *)

Definition ROOT : string := "http://www1.ncdc.noaa.gov/pub/data/gsod".

Record StationHistory : Type := mkStationHistory {
  sh_usaf : option Z;
  sh_wban : option Z;
  sh_name : string;
  sh_country : string;
  sh_state : string;
  sh_lat : option pyfloat;
  sh_lon : option pyfloat;
  sh_el : option pyfloat;
  sh_begin : option date;
  sh_end : option date
}.

(** [parse_history_line(line)], lines 52-102. *)
Definition parse_history_line (line : string) : result StationHistory :=
  usaf <- except_ValueError
            (v <- py_int (slice 0 6 line) ;; Ok (Some v)) (Ok None) ;;
  wban <- except_ValueError
            (v <- py_int (slice 7 12 line) ;; Ok (Some v)) (Ok None) ;;
  let name := slice 13 43 line in
  let country := slice 43 45 line in
  let state := slice 49 51 line in
  lat <- except_ValueError
           (v <- py_float (slice 58 64 line) ;;
            q <- py_fdiv v (FNum 1000) ;; Ok (Some q)) (Ok None) ;;
  lon <- except_ValueError
           (v <- py_float (slice 65 72 line) ;;
            q <- py_fdiv v (FNum 1000) ;; Ok (Some q)) (Ok None) ;;
  el <- except_ValueError
          (v <- py_float (slice 73 79 line) ;;
           q <- py_fdiv v (FNum 10) ;; Ok (Some q)) (Ok None) ;;
  begin <- except_ValueError
             (begin_year <- py_int (slice 83 87 line) ;;
              begin_mo <- py_int (slice 87 89 line) ;;
              begin_day <- py_int (slice 89 91 line) ;;
              d <- datetime_date begin_year begin_mo begin_day ;;
              Ok (Some d)) (Ok None) ;;
  end_ <- except_ValueError
            (end_year <- py_int (slice 92 96 line) ;;
             end_mo <- py_int (slice 96 98 line) ;;
             end_day <- py_int (slice 98 100 line) ;;
             d <- datetime_date end_year end_mo end_day ;;
             Ok (Some d)) (Ok None) ;;
  Ok (mkStationHistory usaf wban name country state lat lon el begin end_).

(** The loop of [get_station_histories], lines 111-115: [sh_list] grows
    by one record per line that parses; [except Exception] logs the line
    and goes on. *)
Fixpoint get_station_histories_loop (lines : list string)
    (sh_list : list StationHistory) (log : list string)
  : list StationHistory * list string :=
  match lines with
  | [] => (sh_list, log)
  | line :: rest =>
      match parse_history_line line with
      | Ok sh => get_station_histories_loop rest (sh_list ++ [sh]) log
      | Err _ =>
          get_station_histories_loop rest sh_list
            (log ++ ["Error processing line '" ++ line ++ "'"])
      end
  end.

(** [get_station_histories()], lines 105-116, on the text of the listing
    that the request returned. *)
Definition get_station_histories (ish_text : string)
  : list StationHistory * list string :=
  get_station_histories_loop (skipn 22 (split_nl ish_text)) [] [].

(** [parse_gsod_line(line)], lines 119-132. *)
Definition parse_gsod_line (line : string)
  : result (date * pyfloat * pyfloat * pyfloat) :=
  t_mean <- py_float (slice 25 30 line) ;;
  let t_mean := if flt t_mean (FNum 9000) then t_mean else nan in
  t_max <- py_float (slice 102 108 line) ;;
  let t_max := if flt t_max (FNum 9000) then t_max else nan in
  t_min <- py_float (slice 110 116 line) ;;
  let t_min := if flt t_min (FNum 9000) then t_min else nan in
  year <- py_int (slice 14 18 line) ;;
  mo <- py_int (slice 18 20 line) ;;
  day <- py_int (slice 20 22 line) ;;
  date <- datetime_date year mo day ;;
  Ok (date, t_mean, t_max, t_min).

(** The four lists [get_wban] fills, lines 139-142. *)
Record columns : Type := mkcolumns {
  t_mean_list : list pyfloat;
  t_max_list : list pyfloat;
  t_min_list : list pyfloat;
  idx_list : list (Z * Z)
}.

Definition no_columns : columns := mkcolumns [] [] [] [].

(** One row of the table: its index [(year, doy)] and three columns. *)
Record Row : Type := mkRow {
  row_year : Z;
  row_doy : Z;
  t_mean : pyfloat;
  t_max : pyfloat;
  t_min : pyfloat
}.

Definition DataFrame : Type := list Row.

(** [pandas.DataFrame({...}, index=MultiIndex.from_tuples(idx_list))],
    lines 168-175: the i-th row has the i-th entry of each list. *)
Fixpoint zip_rows (idx : list (Z * Z)) (means maxs mins : list pyfloat)
  : DataFrame :=
  match idx, means, maxs, mins with
  | (y, d) :: idx', a :: means', b :: maxs', c :: mins' =>
      mkRow y d a b c :: zip_rows idx' means' maxs' mins'
  | _, _, _, _ => []
  end.

Definition pandas_DataFrame (c : columns) : DataFrame :=
  zip_rows (idx_list c) (t_mean_list c) (t_max_list c) (t_min_list c).

(** [wban == sh.wban] for an integer [wban]; [None] equals no integer. *)
Definition wban_eq (wban : Z) (w : option Z) : bool :=
  match w with
  | Some z => wban =? z
  | None => false
  end.

(** The scan of lines 143-147: the first record whose [wban] matches. *)
Fixpoint find_wban (wban : Z) (station_histories : list StationHistory)
  : option StationHistory :=
  match station_histories with
  | [] => None
  | sh :: rest =>
      if wban_eq wban (sh_wban sh) then Some sh else find_wban wban rest
  end.

(** [d.year] on a value that may be [None]. *)
Definition attr_year (d : option date) : result Z :=
  match d with
  | Some d => Ok (year d)
  | None => Err AttributeError
  end.

(** [xrange(a, b)]. *)
Definition xrange (a b : Z) : list Z :=
  map (fun i => a + Z.of_nat i) (seq 0 (Z.to_nat (b - a))).

(** The file name of line 151. *)
Definition archive_filename (usaf wban : option Z) (year : Z)
  : result string :=
  a <- py_format_0d 6 usaf ;;
  b <- py_format_0d 5 wban ;;
  c <- py_format_0d 4 (Some year) ;;
  Ok (a ++ "-" ++ b ++ "-" ++ c ++ ".op.gz").

(** The URL of line 152. *)
Definition archive_url (usaf wban : option Z) (year : Z) : result string :=
  filename <- archive_filename usaf wban year ;;
  Ok (ROOT ++ "/" ++ format_0d 4 year ++ "/" ++ filename).

Definition warn_line (line : string) : string :=
  "Failed to parse line '" ++ line ++ "'".

(** The inner loop, lines 157-167, over the lines of one archive. *)
Fixpoint get_wban_lines (year : Z) (lines : list string)
    (acc : columns) (log : list string) : columns * list string :=
  match lines with
  | [] => (acc, log)
  | line :: rest =>
      match parse_gsod_line line with
      | Ok (date, t_mean, t_max, t_min) =>
          let doy := tm_yday date in
          get_wban_lines year rest
            (mkcolumns (t_mean_list acc ++ [t_mean])
                       (t_max_list acc ++ [t_max])
                       (t_min_list acc ++ [t_min])
                       (idx_list acc ++ [(year, doy)]))
            log
      | Err _ =>
          get_wban_lines year rest acc
            (if (0 <? String.length line)%nat then log ++ [warn_line line] else log)
      end
  end.

(** The outer loop, lines 150-167; a failure to format the name or to
    fetch an archive propagates. *)
Fixpoint get_wban_years (fetch : string -> result string)
    (wban_sh : StationHistory) (years : list Z)
    (acc : columns) (log : list string) : result columns * list string :=
  match years with
  | [] => (Ok acc, log)
  | year :: rest =>
      match (url <- archive_url (sh_usaf wban_sh) (sh_wban wban_sh) year ;;
             fetch url) with
      | Err e => (Err e, log)
      | Ok content =>
          let '(acc', log') :=
            get_wban_lines year (tl (split_nl content)) acc log in
          get_wban_years fetch wban_sh rest acc' log'
      end
  end.

(** [get_wban(wban, station_histories)], lines 135-176: the table or the
    exception raised, and the warnings logged. *)
Definition get_wban (fetch : string -> result string) (wban : Z)
    (station_histories : list StationHistory)
  : result DataFrame * list string :=
  match find_wban wban station_histories with
  | None =>
      (Err (Exception_ ("Couldn't find wban " ++ format_s wban
                          ++ " in station histories.")), [])
  | Some wban_sh =>
      match (b <- attr_year (sh_begin wban_sh) ;;
             e <- attr_year (sh_end wban_sh) ;;
             Ok (xrange b (e + 1))) with
      | Err e => (Err e, [])
      | Ok years =>
          let '(r, log) := get_wban_years fetch wban_sh years no_columns [] in
          (c <- r ;; Ok (pandas_DataFrame c), log)
      end
  end.

(** ** The report stage *)

Definition fmax2 (a b : pyfloat) : pyfloat := if flt a b then b else a.
Definition fmin2 (a b : pyfloat) : pyfloat := if flt b a then b else a.

Definition not_nan (x : pyfloat) : bool := negb (is_nan x).

(** [Series.max()] and [Series.min()]: not-a-number entries are skipped;
    the result is not-a-number when nothing is left. *)
Definition series_max (l : list pyfloat) : pyfloat :=
  match filter not_nan l with
  | [] => FNaN
  | x :: xs => fold_left fmax2 xs x
  end.

Definition series_min (l : list pyfloat) : pyfloat :=
  match filter not_nan l with
  | [] => FNaN
  | x :: xs => fold_left fmin2 xs x
  end.

(** [DataFrame.dropna()]: rows with a not-a-number entry are dropped. *)
Definition row_clean (r : Row) : bool :=
  (not_nan (t_mean r) && not_nan (t_max r) && not_nan (t_min r))%bool.

Definition dropna (data : DataFrame) : DataFrame := filter row_clean data.

(** [groupby(level='year')]: the distinct years in increasing order, each
    with its rows in table order. *)
Fixpoint insert_year (y : Z) (ys : list Z) : list Z :=
  match ys with
  | [] => [y]
  | z :: zs =>
      if y <? z then y :: ys
      else if y =? z then ys
      else z :: insert_year y zs
  end.

Definition group_years (data : DataFrame) : list Z :=
  fold_right insert_year [] (map row_year data).

Definition groupby_year (data : DataFrame) : list (Z * DataFrame) :=
  map (fun y => (y, filter (fun r => row_year r =? y) data))
      (group_years data).

(** One row of an annual frame: the year and one aggregate per column. *)
Record AnnualRow : Type := mkAnnualRow {
  an_year : Z;
  an_t_mean : pyfloat;
  an_t_max : pyfloat;
  an_t_min : pyfloat
}.

Definition aggregate (f : list pyfloat -> pyfloat)
    (groups : list (Z * DataFrame)) : list AnnualRow :=
  map (fun g => mkAnnualRow (fst g) (f (map t_mean (snd g)))
                            (f (map t_max (snd g)))
                            (f (map t_min (snd g))))
      groups.

(** What [process_data] emits: the four records it prints and the three
    annual frames it hands to the plotting collaborator. *)
Record Report : Type := mkReport {
  record_high : pyfloat;
  record_high_mean : pyfloat;
  record_low : pyfloat;
  record_low_mean : pyfloat;
  annual_mean : list AnnualRow;
  annual_max : list AnnualRow;
  annual_min : list AnnualRow
}.

(** [process_data(data)], lines 179-194.  [series_mean] is the mean
    pandas takes of one column of one year's rows.  It adds and divides
    in binary64, in an order that is the library's own, so it is handed
    over as it is and nothing is assumed of it. *)
Definition process_data (series_mean : list pyfloat -> pyfloat)
    (data : DataFrame) : Report :=
  let cleaned := dropna data in
  mkReport (series_max (map t_max data))
           (series_max (map t_mean data))
           (series_min (map t_min data))
           (series_min (map t_mean data))
           (aggregate series_mean (groupby_year cleaned))
           (aggregate series_max (groupby_year cleaned))
           (aggregate series_min (groupby_year cleaned)).

(** Whether some character of [s] satisfies [p]. *)
Fixpoint has_char (p : ascii -> bool) (s : string) : bool :=
  match s with
  | String c s' => (p c || has_char p s')%bool
  | EmptyString => false
  end.

(** A character that a number can hold on to: a decimal digit, or the
    letter n of [nan], [inf] and [infinity]. *)
Definition numeric_char (c : ascii) : bool :=
  (is_digit c || Ascii.eqb "n" (lower c))%bool.

(** What each field of a history line is, from its own slices alone. *)
Definition field_int (s : string) : option Z := to_option (py_int s).

Definition field_scaled (s : string) (k : Q) : option pyfloat :=
  match py_float s with
  | Ok v => to_option (py_fdiv v (FNum k))
  | Err _ => None
  end.

Definition field_date (ys ms ds : string) : option date :=
  match py_int ys, py_int ms, py_int ds with
  | Ok y, Ok m, Ok d => to_option (datetime_date y m d)
  | _, _, _ => None
  end.

(** The record [parse_history_line] returns, field by field. *)
Definition history_fields (line : string) : StationHistory :=
  mkStationHistory
    (field_int (slice 0 6 line))
    (field_int (slice 7 12 line))
    (slice 13 43 line) (slice 43 45 line) (slice 49 51 line)
    (field_scaled (slice 58 64 line) 1000)
    (field_scaled (slice 65 72 line) 1000)
    (field_scaled (slice 73 79 line) 10)
    (field_date (slice 83 87 line) (slice 87 89 line) (slice 89 91 line))
    (field_date (slice 92 96 line) (slice 96 98 line) (slice 98 100 line)).

(** Whether three slices hold a year, a month and a day that form a
    calendar date. *)
Definition date_slices_valid (ys ms ds : string) : bool :=
  match py_int ys, py_int ms, py_int ds with
  | Ok y, Ok m, Ok d => is_ok (datetime_date y m d)
  | _, _, _ => false
  end.

(** A record none of whose numeric and date fields is present. *)
Definition all_absent (sh : StationHistory) : Prop :=
  sh_usaf sh = None /\ sh_wban sh = None /\ sh_lat sh = None
  /\ sh_lon sh = None /\ sh_el sh = None
  /\ sh_begin sh = None /\ sh_end sh = None.

(** The sentinel rule between a decoded temperature [v] and the value [t]
    returned for it. *)
Definition sentinel_rule (v t : pyfloat) : Prop :=
  (fge v (FNum 9000) = true -> is_nan t = true)
  /\ (flt v (FNum 9000) = true -> t = v)
  /\ fge t (FNum 9000) = false.

(** The four lists have one entry per row. *)
Definition wf_columns (c : columns) : Prop :=
  List.length (t_mean_list c) = List.length (idx_list c)
  /\ List.length (t_max_list c) = List.length (idx_list c)
  /\ List.length (t_min_list c) = List.length (idx_list c).

(** The URL of an archive whose station numbers are present. *)
Definition archive_url_text (usaf wban year : Z) : string :=
  ROOT ++ "/" ++ format_0d 4 year ++ "/"
       ++ format_0d 6 usaf ++ "-" ++ format_0d 5 wban ++ "-"
       ++ format_0d 4 year ++ ".op.gz".

(** Sample data: a daily-observation line with the given date and
    temperature fields at their offsets, and blanks elsewhere. *)
Fixpoint spaces (n : nat) : string :=
  match n with
  | O => EmptyString
  | S k => String " " (spaces k)
  end.

Definition gsod_line (d tm tx tn : string) : string :=
  spaces 14 ++ d ++ spaces 3 ++ tm ++ spaces 72 ++ tx ++ spaces 2 ++ tn.

Definition nl : string := String "010" EmptyString.

(** Sample data: a station-history line with the given [begin] and [end]
    fields. *)
Definition history_line (b e : string) : string :=
  "720000 12345 BURLINGTON INTERNATIONAL AIRPO" ++ "US" ++ spaces 4 ++ "VT"
  ++ spaces 7 ++ "+44468" ++ " " ++ "-073150" ++ " " ++ "+01040"
  ++ spaces 4 ++ b ++ " " ++ e.

Definition sample_station (b e : Z) : StationHistory :=
  mkStationHistory (Some 123456) (Some 12345)
    "SAMPLE" "US" "VT" None None None
    (Some (mkdate b 1 1)) (Some (mkdate e 12 31)).

Definition line_jan1 : string :=
  gsod_line "20000101" " 10.0" "  15.0" "   5.0".
Definition line_jan2_missing : string :=
  gsod_line "20000102" " 11.0" "9999.9" "   6.0".
Definition line_feb30 : string :=
  gsod_line "20000230" " 12.0" "  16.0" "   7.0".
Definition line_2001 : string :=
  gsod_line "20010301" " 20.5" "  25.0" "  -1.5".
Definition line_prev_year : string :=
  gsod_line "19991231" "  1.0" "   2.0" "   0.0".

(** An archive that lists 1 January twice. *)
Definition fetch_repeated (url : string) : result string :=
  Ok ("HEADER" ++ nl ++ line_jan1 ++ nl ++ line_jan1 ++ nl).

(** Two archives, each with one malformed line. *)
Definition contents_two_years (y : Z) : string :=
  if y =? 2000 then
    "HEADER" ++ nl ++ line_jan1 ++ nl ++ line_feb30 ++ nl
             ++ line_jan2_missing ++ nl
  else
    "HEADER" ++ nl ++ "not an observation" ++ nl ++ line_2001 ++ nl.

Definition fetch_two_years (url : string) : result string :=
  if String.eqb url (archive_url_text 123456 12345 2000) then
    Ok (contents_two_years 2000)
  else if String.eqb url (archive_url_text 123456 12345 2001) then
    Ok (contents_two_years 2001)
  else Err (Exception_ "404").

(** Some entry of [l] is a number. *)
Definition has_value (l : list pyfloat) : Prop :=
  exists x, In x l /\ not_nan x = true.

(** [m] is the largest (smallest) entry of [l], not-a-number entries left
    aside; it is not-a-number when only such entries are there. *)
Definition max_ignoring_nan (l : list pyfloat) (m : pyfloat) : Prop :=
  (has_value l ->
   not_nan m = true /\ In m l
   /\ forall x, In x l -> not_nan x = true -> fle x m = true)
  /\ (~ has_value l -> is_nan m = true).

Definition min_ignoring_nan (l : list pyfloat) (m : pyfloat) : Prop :=
  (has_value l ->
   not_nan m = true /\ In m l
   /\ forall x, In x l -> not_nan x = true -> fle m x = true)
  /\ (~ has_value l -> is_nan m = true).

(** The column [f] of the rows of year [y]. *)
Definition year_column (f : Row -> pyfloat) (y : Z) (data : DataFrame)
  : list pyfloat :=
  map f (filter (fun r => row_year r =? y) data).

(** The annual frame an aggregate [agg] gives on [data]. *)
Definition annual_frame (agg : list pyfloat -> pyfloat) (data : DataFrame)
  : list AnnualRow :=
  map (fun y => mkAnnualRow y (agg (year_column t_mean y data))
                            (agg (year_column t_max y data))
                            (agg (year_column t_min y data)))
      (group_years data).

(** The table of two rows, one of them all not-a-number. *)
Definition sample_table : DataFrame :=
  [mkRow 2000 1 (FNum 10) (FNum 15) (FNum 5);
   mkRow 2001 1 FNaN FNaN FNaN].

(** The rows one archive contributes: one per line that parses, keyed by
    the archive's year and the day of the year of the line's date. *)
Definition rows_of_line (year : Z) (line : string) : DataFrame :=
  match parse_gsod_line line with
  | Ok (d, a, b, c) => [mkRow year (tm_yday d) a b c]
  | Err _ => []
  end.

Definition rows_of_archive (year : Z) (content : string) : DataFrame :=
  flat_map (rows_of_line year) (tl (split_nl content)).

(** The warnings one archive contributes: one per non-empty line that
    does not parse. *)
Definition warns_of_line (line : string) : list string :=
  match parse_gsod_line line with
  | Ok _ => []
  | Err _ => if (0 <? String.length line)%nat then [warn_line line] else []
  end.

Definition warns_of_archive (content : string) : list string :=
  flat_map warns_of_line (tl (split_nl content)).

Definition row_key (r : Row) : Z * Z := (row_year r, row_doy r).

(** ** Vocabulary of the further properties *)

(** A date [datetime.date] accepts. *)
Definition valid_date (d : date) : Prop :=
  1 <= year d <= 9999 /\ 1 <= month d <= 12
  /\ 1 <= day d <= days_in_month (year d) (month d).

Definition days_in_year (y : Z) : Z := if is_leap y then 366 else 365.

Definition is_empty (s : string) : bool :=
  match s with EmptyString => true | String _ _ => false end.

Definition count_empty (lines : list string) : nat :=
  List.length (filter is_empty lines).

(** The number of newline characters of a text. *)
Fixpoint count_nl (s : string) : nat :=
  match s with
  | EmptyString => O
  | String c s' => if Ascii.eqb c "010" then S (count_nl s') else count_nl s'
  end.

(** A temperature the sentinel rule lets through. *)
Definition below_sentinel (t : pyfloat) : Prop := fge t (FNum 9000) = false.

(** A row made from a line of the archive of year [y]. *)
Definition row_from_line (y : Z) (r : Row) : Prop :=
  row_year r = y
  /\ exists line d,
       parse_gsod_line line = Ok (d, t_mean r, t_max r, t_min r)
       /\ row_doy r = tm_yday d.

(** Sample data: the two archives of [fetch_two_years], and a page for
    every other address. *)
Definition fetch_two_years_or_page (url : string) : result string :=
  if String.eqb url (archive_url_text 123456 12345 2000) then
    Ok (contents_two_years 2000)
  else if String.eqb url (archive_url_text 123456 12345 2001) then
    Ok (contents_two_years 2001)
  else Ok "<html>index</html>".

(** Sample data: the archive of 2000 is there, the one of 2001 is not. *)
Definition fetch_first_year_only (url : string) : result string :=
  if String.eqb url (archive_url_text 123456 12345 2000) then
    Ok (contents_two_years 2000)
  else Err (Exception_ "404").

(** Sample data: a listing of 22 header lines and two station lines with
    the same [wban], the first with an impossible [begin]. *)
Fixpoint header_lines (n : nat) : string :=
  match n with
  | O => EmptyString
  | S k => "header" ++ nl ++ header_lines k
  end.

Definition sample_listing : string :=
  header_lines 22 ++ history_line "19990230" "20121231" ++ nl
                  ++ history_line "20000101" "20011231".

(** The clean rows of year [y]. *)
Definition clean_rows_of (y : Z) (data : DataFrame) : DataFrame :=
  filter (fun r => row_year r =? y) (dropna data).

(** [m] is the largest ([is_max]) or smallest entry of column [f] over
    the clean rows of year [y], and one of these rows has it. *)
Definition year_extreme (data : DataFrame) (y : Z) (f : Row -> pyfloat)
    (m : pyfloat) (is_max : bool) : Prop :=
  (exists r, In r data /\ row_clean r = true /\ row_year r = y /\ f r = m)
  /\ forall r, In r data -> row_clean r = true -> row_year r = y ->
                (if is_max then fle (f r) m else fle m (f r)) = true.

(** The number a decimal numeral writes, read from the left onto [acc]. *)
Fixpoint uint_val (d : Decimal.uint) (acc : Z) : Z :=
  match d with
  | Decimal.Nil => acc
  | Decimal.D0 l => uint_val l (10 * acc + 0)
  | Decimal.D1 l => uint_val l (10 * acc + 1)
  | Decimal.D2 l => uint_val l (10 * acc + 2)
  | Decimal.D3 l => uint_val l (10 * acc + 3)
  | Decimal.D4 l => uint_val l (10 * acc + 4)
  | Decimal.D5 l => uint_val l (10 * acc + 5)
  | Decimal.D6 l => uint_val l (10 * acc + 6)
  | Decimal.D7 l => uint_val l (10 * acc + 7)
  | Decimal.D8 l => uint_val l (10 * acc + 8)
  | Decimal.D9 l => uint_val l (10 * acc + 9)
  end.

Fixpoint all_digits (s : string) : bool :=
  match s with
  | EmptyString => true
  | String c s' => (is_digit c && all_digits s')%bool
  end.

(** What [format_0d] writes after the sign. *)
Definition format_body (width : nat) (z : Z) : string :=
  zeros (width - String.length (if z <? 0 then "-" else "")
               - String.length (digits_of z))
  ++ digits_of z.

(** Text that [int] reads alike as a byte string and as decoded text:
    characters below 128, the separators 28 to 31 apart, which decoded
    text alone counts as white space. *)
Definition plain_char (c : ascii) : bool :=
  let n := N_of_ascii c in
  (N.ltb n 128 && negb (N.leb 28 n && N.leb n 31))%bool.

Fixpoint plain_text (s : string) : bool :=
  match s with
  | EmptyString => true
  | String c s' => (plain_char c && plain_text s')%bool
  end.

(** Sample data: the mean of a column of one entry is that entry, the one
    case in which nothing is rounded; the sample tables have one row
    without not-a-number a year. *)
Definition mean_of_one (l : list pyfloat) : pyfloat :=
  match l with
  | [x] => x
  | _ => FNaN
  end.

(** Sample data: a station with another code. *)
Definition other_station : StationHistory :=
  mkStationHistory (Some 654321) (Some 54321)
    "OTHER" "US" "NY" None None None
    (Some (mkdate 1990 1 1)) (Some (mkdate 1991 12 31)).

(** Sample data: a listing of 22 header lines, a blank line and two
    station lines with the same [wban], the second with an impossible
    [begin]; and the two archives of the first of these stations. *)
Definition listing_two_years : string :=
  header_lines 22 ++ nl ++ history_line "20000101" "20011231" ++ nl
                  ++ history_line "19990230" "20121231".

Definition fetch_listed (url : string) : result string :=
  if String.eqb url (archive_url_text 720000 12345 2000) then
    Ok (contents_two_years 2000)
  else if String.eqb url (archive_url_text 720000 12345 2001) then
    Ok (contents_two_years 2001)
  else Err (Exception_ "404").

(** ** The command line *)

(** [main(argv)], lines 203-223, after the arguments are parsed.
    [setup_cache] is the outcome of [_setup_cache()], [ish] the outcome of
    fetching the listing, [series_mean] the mean of pandas, [show] the
    printing and plotting of a report, [verbose] and [args_wban] the two
    options.  The bare [except] turns
    every exception into the exit code -1; the debug message is emitted
    only at the verbose level. *)
Definition main (setup_cache : result unit) (ish : result string)
    (fetch : string -> result string)
    (series_mean : list pyfloat -> pyfloat) (show : Report -> result unit)
    (verbose : bool) (args_wban : option string) : Z * list string :=
  let '(r, log) :=
    match setup_cache with
    | Err e => (Err e, [])
    | Ok _ =>
        match ish with
        | Err e => (Err e, [])
        | Ok text =>
            let '(station_histories, log1) := get_station_histories text in
            match args_wban with
            | None => (Ok tt, log1)
            | Some a =>
                match py_int a with
                | Err e => (Err e, log1)
                | Ok wban =>
                    let '(r, log2) := get_wban fetch wban station_histories in
                    match r with
                    | Err e => (Err e, (log1 ++ log2)%list)
                    | Ok data =>
                        (show (process_data series_mean data),
                         (log1 ++ log2)%list)
                    end
                end
            end
        end
    end in
  match r with
  | Err _ => (-1, (log ++ ["Exiting due to error"])%list)
  | Ok _ => (0, if verbose then (log ++ ["Exiting normally."])%list else log)
  end.

(** * Properties *)

(** ** Slices *)

Lemma substring_length_le (s : string) :
  forall a m, (String.length (substring a m s) <= m)%nat.
Proof.
  induction s as [|c s IH]; intros a m.
  - destruct a, m; simpl; lia.
  - destruct a as [|a].
    + destruct m as [|m]; simpl; [lia|].
      specialize (IH 0%nat m). lia.
    + simpl. apply IH.
Qed.

Lemma slice_length_le (a b : nat) (s : string) :
  (String.length (slice a b s) <= b - a)%nat.
Proof. apply substring_length_le. Qed.

Lemma substring_prefix (s t : string) :
  substring 0 (String.length s) (s ++ t) = s.
Proof.
  induction s as [|c s IH]; simpl.
  - destruct t; reflexivity.
  - now rewrite IH.
Qed.

Lemma has_char_substring (p : ascii -> bool) (s : string) :
  forall a m, has_char p (substring a m s) = true -> has_char p s = true.
Proof.
  induction s as [|c s IH]; intros a m H.
  - destruct a, m; simpl in H; discriminate.
  - destruct a as [|a].
    + destruct m as [|m]; simpl in H; [discriminate|].
      simpl. apply orb_true_iff in H. destruct H as [H|H].
      * now rewrite H.
      * rewrite (IH _ _ H). apply orb_true_r.
    + simpl in H. simpl. rewrite (IH _ _ H). apply orb_true_r.
Qed.

Lemma has_char_slice_false (p : ascii -> bool) (a b : nat) (s : string) :
  has_char p s = false -> has_char p (slice a b s) = false.
Proof.
  intros H. destruct (has_char p (slice a b s)) eqn:E; [|reflexivity].
  apply has_char_substring in E. congruence.
Qed.

(** ** Digits and integers *)

Lemma digit_val_range (c : ascii) :
  is_digit c = true -> 0 <= digit_val c <= 9.
Proof.
  unfold is_digit, digit_val. intros H.
  apply andb_true_iff in H. destruct H as [H1 H2].
  apply N.leb_le in H1. apply N.leb_le in H2. lia.
Qed.

Lemma read_digits_bound (s : string) :
  forall acc n v k rest,
    0 <= acc -> read_digits acc n s = (v, k, rest) ->
    0 <= v < (acc + 1) * 10 ^ Z.of_nat (String.length s).
Proof.
  induction s as [|c s IH]; intros acc n v k rest Hacc H.
  - simpl in H. inversion H; subst. simpl. lia.
  - cbn [read_digits] in H. cbn [String.length].
    rewrite Nat2Z.inj_succ, Z.pow_succ_r by lia.
    assert (Hp : 0 < 10 ^ Z.of_nat (String.length s))
      by (apply Z.pow_pos_nonneg; lia).
    set (P := 10 ^ Z.of_nat (String.length s)) in *.
    destruct (is_digit c) eqn:Hd.
    + pose proof (digit_val_range c Hd) as Hr.
      apply IH in H; [|lia].
      assert ((10 * acc + digit_val c + 1) * P <= (acc + 1) * (10 * P))
        by nia.
      lia.
    + inversion H; subst.
      assert (v * 1 < (v + 1) * (10 * P)) by (apply Z.mul_lt_mono_nonneg; lia).
      lia.
Qed.

Lemma read_digits_rest (p : ascii -> bool) (s : string) :
  forall acc n v k rest,
    read_digits acc n s = (v, k, rest) ->
    has_char p rest = true -> has_char p s = true.
Proof.
  induction s as [|c s IH]; intros acc n v k rest H Hr.
  - simpl in H. inversion H; subst. exact Hr.
  - cbn [read_digits] in H. destruct (is_digit c).
    + simpl. rewrite (IH _ _ _ _ _ H Hr). apply orb_true_r.
    + inversion H; subst. exact Hr.
Qed.

Lemma read_digits_some (s : string) (acc : Z) (n : nat) v k rest :
  read_digits acc n s = (v, k, rest) ->
  k = n \/ has_char is_digit s = true.
Proof.
  destruct s as [|c s]; cbn [read_digits]; intros H.
  - inversion H; auto.
  - destruct (is_digit c) eqn:Hd.
    + right. simpl. now rewrite Hd.
    + inversion H; auto.
Qed.

Lemma lstrip_length (s : string) :
  (String.length (lstrip s) <= String.length s)%nat.
Proof.
  induction s as [|c s IH]; simpl; [lia|].
  destruct (is_space c); simpl; lia.
Qed.

Lemma lstrip_has_char (p : ascii -> bool) (s : string) :
  has_char p (lstrip s) = true -> has_char p s = true.
Proof.
  induction s as [|c s IH]; simpl; [auto|].
  destruct (is_space c); simpl; auto.
  intros H. rewrite (IH H). apply orb_true_r.
Qed.

Lemma read_sign_length (s : string) neg r :
  read_sign s = (neg, r) -> (String.length r <= String.length s)%nat.
Proof.
  unfold read_sign. intros H.
  destruct s as [|c s]; [inversion H; subst; simpl; lia|].
  destruct c as [[] [] [] [] [] [] [] []];
    inversion H; subst; simpl; lia.
Qed.

Lemma read_sign_has_char (p : ascii -> bool) (s : string) neg r :
  read_sign s = (neg, r) -> has_char p r = true -> has_char p s = true.
Proof.
  unfold read_sign. intros H Hr.
  destruct s as [|c s]; [inversion H; subst; exact Hr|].
  destruct c as [[] [] [] [] [] [] [] []];
    inversion H; subst; try exact Hr;
    simpl; rewrite Hr; apply orb_true_r.
Qed.

Lemma py_int_err (s : string) (e : exn) : py_int s = Err e -> e = ValueError.
Proof.
  unfold py_int.
  destruct (read_sign (lstrip s)) as [neg s1].
  destruct (read_digits 0 0 s1) as [[v n] rest].
  destruct n; [congruence|].
  destruct (all_space rest); congruence.
Qed.

Lemma py_int_bound (s : string) (z : Z) :
  py_int s = Ok z -> Z.abs z < 10 ^ Z.of_nat (String.length s).
Proof.
  unfold py_int.
  destruct (read_sign (lstrip s)) as [neg s1] eqn:Hs.
  destruct (read_digits 0 0 s1) as [[v n] rest] eqn:Hd.
  destruct n; [discriminate|].
  destruct (all_space rest); [|discriminate].
  intros H. inversion H; subst; clear H.
  apply read_digits_bound in Hd; [|lia].
  apply read_sign_length in Hs. pose proof (lstrip_length s) as Hl.
  assert (10 ^ Z.of_nat (String.length s1) <= 10 ^ Z.of_nat (String.length s))
    by (apply Z.pow_le_mono_r; lia).
  destruct neg; lia.
Qed.

Lemma py_int_has_digit (s : string) (z : Z) :
  py_int s = Ok z -> has_char is_digit s = true.
Proof.
  unfold py_int.
  destruct (read_sign (lstrip s)) as [neg s1] eqn:Hs.
  destruct (read_digits 0 0 s1) as [[v n] rest] eqn:Hd.
  destruct n; [discriminate|]. intros _.
  apply read_digits_some in Hd. destruct Hd as [Hd|Hd]; [discriminate|].
  apply lstrip_has_char. eapply read_sign_has_char; eauto.
Qed.

(** ** Floats *)

Lemma has_char_weaken (p q : ascii -> bool) (s : string) :
  (forall c, p c = true -> q c = true) ->
  has_char p s = true -> has_char q s = true.
Proof.
  intros Hpq. induction s as [|c s IH]; simpl; [auto|].
  intros H. apply orb_true_iff in H. apply orb_true_iff.
  destruct H as [H|H]; [left; auto | right; auto].
Qed.

Lemma digit_numeric (c : ascii) : is_digit c = true -> numeric_char c = true.
Proof. unfold numeric_char. intros ->. reflexivity. Qed.

(** Each of the three names [float] accepts has an n in second or first
    place. *)
Lemma strip_prefix_second_n (a : ascii) (p s : string) (r : string) :
  strip_prefix_ci (String a (String "n" p)) s = Some r ->
  has_char numeric_char s = true.
Proof.
  destruct s as [|c1 [|c2 s]]; cbn [strip_prefix_ci].
  - discriminate.
  - destruct (Ascii.eqb a (lower c1)); discriminate.
  - destruct (Ascii.eqb a (lower c1)); [|discriminate].
    destruct (Ascii.eqb "n" (lower c2)) eqn:E; [|discriminate].
    intros _. cbn [has_char]. unfold numeric_char at 2. rewrite E.
    rewrite orb_true_r. apply orb_true_r.
Qed.

Lemma strip_prefix_first_n (p s : string) (r : string) :
  strip_prefix_ci (String "n" p) s = Some r ->
  has_char numeric_char s = true.
Proof.
  destruct s as [|c1 s]; cbn [strip_prefix_ci]; [discriminate|].
  destruct (Ascii.eqb "n" (lower c1)) eqn:E; [|discriminate].
  intros _. cbn [has_char]. unfold numeric_char. rewrite E.
  rewrite orb_true_r. reflexivity.
Qed.

Lemma read_fraction_some (ip : Z) (s : string) m nf rest :
  read_fraction ip s = (m, nf, rest) ->
  nf = O \/ has_char is_digit s = true.
Proof.
  unfold read_fraction. destruct s as [|c r].
  - intros H. inversion H. auto.
  - destruct (Ascii.eqb c ".").
    + intros H. apply read_digits_some in H. destruct H as [H|H]; [auto|].
      right. simpl. rewrite H. apply orb_true_r.
    + intros H. inversion H. auto.
Qed.

Lemma py_float_err (s : string) (e : exn) :
  py_float s = Err e -> e = ValueError.
Proof.
  unfold py_float.
  destruct (read_sign (lstrip s)) as [neg s1].
  destruct (strip_prefix_ci "infinity" s1) as [r|].
  { destruct (all_space r); congruence. }
  destruct (strip_prefix_ci "inf" s1) as [r|].
  { destruct (all_space r); congruence. }
  destruct (strip_prefix_ci "nan" s1) as [r|].
  { destruct (all_space r); congruence. }
  destruct (read_digits 0 0 s1) as [[ip ni] s2].
  destruct (read_fraction ip s2) as [[m nf] s3].
  destruct (ni + nf)%nat; [congruence|].
  destruct (read_exponent s3) as [ex rest].
  destruct (all_space rest); congruence.
Qed.

Lemma py_float_has_numeric (s : string) (v : pyfloat) :
  py_float s = Ok v -> has_char numeric_char s = true.
Proof.
  unfold py_float.
  destruct (read_sign (lstrip s)) as [neg s1] eqn:Hs.
  assert (Hup : has_char numeric_char s1 = true ->
                has_char numeric_char s = true).
  { intros H. apply lstrip_has_char. eapply read_sign_has_char; eauto. }
  destruct (strip_prefix_ci "infinity" s1) as [r|] eqn:H1.
  { intros _. apply Hup. eapply strip_prefix_second_n; eauto. }
  destruct (strip_prefix_ci "inf" s1) as [r|] eqn:H2.
  { intros _. apply Hup. eapply strip_prefix_second_n; eauto. }
  destruct (strip_prefix_ci "nan" s1) as [r|] eqn:H3.
  { intros _. apply Hup. eapply strip_prefix_first_n; eauto. }
  destruct (read_digits 0 0 s1) as [[ip ni] s2] eqn:Hd.
  destruct (read_fraction ip s2) as [[m nf] s3] eqn:Hf.
  destruct (ni + nf)%nat eqn:Hn; [discriminate|]. intros _.
  apply Hup. apply has_char_weaken with (p := is_digit);
    [exact digit_numeric|].
  pose proof (read_digits_some _ _ _ _ _ _ Hd) as [Hi|Hi]; [|exact Hi].
  pose proof (read_fraction_some _ _ _ _ _ Hf) as [Hz|Hz]; [lia|].
  eapply read_digits_rest; eauto.
Qed.

Lemma Qis_zero_false (q : Q) : ~ (q == 0)%Q -> Qis_zero q = false.
Proof.
  unfold Qis_zero. intros H.
  destruct (Qcompare q 0) eqn:E; try reflexivity.
  apply Qeq_alt in E. contradiction.
Qed.

Lemma py_fdiv_nonzero (v : pyfloat) (k : Q) :
  ~ (k == 0)%Q -> exists q, py_fdiv v (FNum k) = Ok q.
Proof.
  intros H. unfold py_fdiv. rewrite (Qis_zero_false k H).
  destruct v; eauto.
Qed.

(** ** Dates *)

Lemma fits_c_int_of_bound (z : Z) (n : nat) :
  (n <= 4)%nat -> Z.abs z < 10 ^ Z.of_nat n -> fits_c_int z = true.
Proof.
  intros Hn Hz.
  assert (10 ^ Z.of_nat n <= 10 ^ 4) by (apply Z.pow_le_mono_r; lia).
  change (10 ^ 4) with 10000 in *.
  unfold fits_c_int. apply andb_true_iff. split; apply Z.leb_le; lia.
Qed.

Lemma datetime_date_err (y m d : Z) (e : exn) :
  fits_c_int y = true -> fits_c_int m = true -> fits_c_int d = true ->
  datetime_date y m d = Err e -> e = ValueError.
Proof.
  unfold datetime_date. intros -> -> ->. cbn [andb negb].
  match goal with |- context [if ?b then _ else _] => destruct b end;
    congruence.
Qed.

Lemma py_int_fits (s : string) (z : Z) :
  (String.length s <= 4)%nat -> py_int s = Ok z -> fits_c_int z = true.
Proof.
  intros Hl H. apply py_int_bound in H.
  eapply fits_c_int_of_bound; eauto.
Qed.

(** ** The [try]/[except ValueError] blocks of the history parser *)

Lemma except_int (s : string) :
  except_ValueError (v <- py_int s ;; Ok (Some v)) (Ok None)
  = Ok (field_int s).
Proof.
  unfold field_int. destruct (py_int s) as [v|e] eqn:E; cbn; [reflexivity|].
  apply py_int_err in E. subst. reflexivity.
Qed.

Lemma except_scaled (s : string) (k : Q) :
  ~ (k == 0)%Q ->
  except_ValueError
    (v <- py_float s ;; q <- py_fdiv v (FNum k) ;; Ok (Some q)) (Ok None)
  = Ok (field_scaled s k).
Proof.
  intros Hk. unfold field_scaled.
  destruct (py_float s) as [v|e] eqn:E; cbn [bind except_ValueError].
  - destruct (py_fdiv_nonzero v k Hk) as [q ->]. reflexivity.
  - apply py_float_err in E. subst. reflexivity.
Qed.

Lemma except_date (ys ms ds : string) :
  (String.length ys <= 4)%nat -> (String.length ms <= 4)%nat ->
  (String.length ds <= 4)%nat ->
  except_ValueError
    (y <- py_int ys ;; m <- py_int ms ;; d <- py_int ds ;;
     dt <- datetime_date y m d ;; Ok (Some dt)) (Ok None)
  = Ok (field_date ys ms ds).
Proof.
  intros Hy Hm Hd. unfold field_date.
  destruct (py_int ys) as [y|e] eqn:Ey; cbn;
    [|apply py_int_err in Ey; subst; reflexivity].
  destruct (py_int ms) as [m|e] eqn:Em; cbn;
    [|apply py_int_err in Em; subst; reflexivity].
  destruct (py_int ds) as [d|e] eqn:Ed; cbn;
    [|apply py_int_err in Ed; subst; reflexivity].
  destruct (datetime_date y m d) as [dt|e] eqn:E; cbn; [reflexivity|].
  apply datetime_date_err in E; eauto using py_int_fits.
  subst. reflexivity.
Qed.

Lemma Q1000_nonzero : ~ (1000 == 0)%Q.
Proof. discriminate. Qed.

Lemma Q10_nonzero : ~ (10 == 0)%Q.
Proof. discriminate. Qed.

Lemma slice_le4 (a b : nat) (s : string) :
  (b - a <= 4)%nat -> (String.length (slice a b s) <= 4)%nat.
Proof. intros H. pose proof (slice_length_le a b s). lia. Qed.

Lemma parse_history_line_eq (line : string) :
  parse_history_line line = Ok (history_fields line).
Proof.
  unfold parse_history_line, history_fields.
  rewrite !except_int.
  rewrite !(except_scaled _ 1000 Q1000_nonzero).
  rewrite (except_scaled _ 10 Q10_nonzero).
  rewrite !except_date by (apply slice_le4; simpl; lia).
  reflexivity.
Qed.

Lemma field_int_none (s : string) :
  field_int s = None <-> is_ok (py_int s) = false.
Proof.
  unfold field_int. destruct (py_int s); simpl; split; congruence.
Qed.

Lemma field_scaled_none (s : string) (k : Q) :
  ~ (k == 0)%Q ->
  (field_scaled s k = None <-> is_ok (py_float s) = false).
Proof.
  intros Hk. unfold field_scaled.
  destruct (py_float s) as [v|e]; [|simpl; split; congruence].
  destruct (py_fdiv_nonzero v k Hk) as [q ->]. simpl. split; congruence.
Qed.

Lemma field_date_none (ys ms ds : string) :
  field_date ys ms ds = None <-> date_slices_valid ys ms ds = false.
Proof.
  unfold field_date, date_slices_valid.
  destruct (py_int ys); [|split; reflexivity].
  destruct (py_int ms); [|split; reflexivity].
  destruct (py_int ds); [|split; reflexivity].
  destruct (datetime_date v v0 v1); simpl; split; congruence.
Qed.

(** C3. For every line, short ones included, [parse_history_line] returns
    a record: each numeric field is what its own slice parses to, absent
    exactly when that slice does not parse, and [begin] and [end] are the
    date their three slices form, absent exactly when these do not form a
    calendar date.  No field depends on another field's slice, and
    nothing is raised. *)
Theorem history_line_fields_independent (line : string) :
  exists sh,
    parse_history_line line = Ok sh
    /\ sh_usaf sh = to_option (py_int (slice 0 6 line))
    /\ sh_wban sh = to_option (py_int (slice 7 12 line))
    /\ sh_name sh = slice 13 43 line
    /\ sh_country sh = slice 43 45 line
    /\ sh_state sh = slice 49 51 line
    /\ sh_lat sh = field_scaled (slice 58 64 line) 1000
    /\ sh_lon sh = field_scaled (slice 65 72 line) 1000
    /\ sh_el sh = field_scaled (slice 73 79 line) 10
    /\ sh_begin sh
       = field_date (slice 83 87 line) (slice 87 89 line) (slice 89 91 line)
    /\ sh_end sh
       = field_date (slice 92 96 line) (slice 96 98 line) (slice 98 100 line)
    /\ (sh_usaf sh = None <-> is_ok (py_int (slice 0 6 line)) = false)
    /\ (sh_wban sh = None <-> is_ok (py_int (slice 7 12 line)) = false)
    /\ (sh_lat sh = None <-> is_ok (py_float (slice 58 64 line)) = false)
    /\ (sh_lon sh = None <-> is_ok (py_float (slice 65 72 line)) = false)
    /\ (sh_el sh = None <-> is_ok (py_float (slice 73 79 line)) = false)
    /\ (sh_begin sh = None <->
        date_slices_valid (slice 83 87 line) (slice 87 89 line)
                          (slice 89 91 line) = false)
    /\ (sh_end sh = None <->
        date_slices_valid (slice 92 96 line) (slice 96 98 line)
                          (slice 98 100 line) = false).
Proof.
  exists (history_fields line). split; [apply parse_history_line_eq|].
  unfold history_fields; cbn [sh_usaf sh_wban sh_name sh_country sh_state
                              sh_lat sh_lon sh_el sh_begin sh_end].
  repeat split;
    try apply field_int_none;
    try apply (field_scaled_none _ _ Q1000_nonzero);
    try apply (field_scaled_none _ _ Q10_nonzero);
    try apply field_date_none.
Qed.

(** A short line and a line with an impossible date: the fields that do
    not parse are absent, the others are kept. *)
Example history_line_short :
  parse_history_line "035623 99999"
  = Ok (mkStationHistory (Some 35623) (Some 99999) "" "" ""
          None None None None None).
Proof. reflexivity. Qed.

Example history_line_feb30 :
  parse_history_line (history_line "19990230" "20121231")
  = Ok (mkStationHistory (Some 720000) (Some 12345)
          "BURLINGTON INTERNATIONAL AIRPO" "US" "VT"
          (Some (FNum (11117 # 250))) (Some (FNum (-1463 # 20)))
          (Some (FNum 104))
          None (Some (mkdate 2012 12 31))).
Proof. reflexivity. Qed.

(** ** The directory loader *)

Lemma get_station_histories_loop_eq (lines : list string) :
  forall sh_list log,
    get_station_histories_loop lines sh_list log
    = ((sh_list ++ map history_fields lines)%list, log).
Proof.
  induction lines as [|line rest IH]; intros sh_list log; simpl.
  - now rewrite app_nil_r.
  - rewrite parse_history_line_eq, IH, <- app_assoc. reflexivity.
Qed.

Lemma space_not_numeric (c : ascii) :
  is_space c = true -> numeric_char c = false.
Proof.
  destruct c as [[] [] [] [] [] [] [] []]; try discriminate; reflexivity.
Qed.

Lemma all_space_not_numeric (s : string) :
  all_space s = true -> has_char numeric_char s = false.
Proof.
  induction s as [|c s IH]; simpl; [reflexivity|].
  intros H. apply andb_true_iff in H. destruct H as [Hc Hs].
  rewrite (space_not_numeric c Hc), (IH Hs). reflexivity.
Qed.

Lemma py_int_no_numeric (s : string) :
  has_char numeric_char s = false -> py_int s = Err ValueError.
Proof.
  intros H. destruct (py_int s) as [v|e] eqn:E.
  - apply py_int_has_digit in E.
    apply (has_char_weaken _ _ _ digit_numeric) in E. congruence.
  - apply py_int_err in E. now subst.
Qed.

Lemma py_float_no_numeric (s : string) :
  has_char numeric_char s = false -> py_float s = Err ValueError.
Proof.
  intros H. destruct (py_float s) as [v|e] eqn:E.
  - apply py_float_has_numeric in E. congruence.
  - apply py_float_err in E. now subst.
Qed.

Lemma history_fields_no_numeric (line : string) :
  has_char numeric_char line = false -> all_absent (history_fields line).
Proof.
  intros H. unfold all_absent, history_fields, field_int, field_scaled,
    field_date; cbn [sh_usaf sh_wban sh_lat sh_lon sh_el sh_begin sh_end].
  rewrite !py_int_no_numeric, !py_float_no_numeric
    by (apply has_char_slice_false; exact H).
  repeat split.
Qed.

(** C8. [parse_history_line] returns a record for every string, the empty
    one included.  So the loader never takes its [except] branch: it logs
    nothing and returns one record for each line after the first 22, in
    the order of the lines.  A line that is blank, or more generally holds
    no digit and no letter n, gives a record whose numeric and date fields
    are all absent. *)
Theorem history_parser_total :
  (forall line, exists sh, parse_history_line line = Ok sh)
  /\ (forall ish_text,
        exists shs,
          get_station_histories ish_text = (shs, [])
          /\ Forall2 (fun line sh => parse_history_line line = Ok sh)
                     (skipn 22 (split_nl ish_text)) shs)
  /\ (forall line,
        all_space line = true \/ has_char numeric_char line = false ->
        exists sh, parse_history_line line = Ok sh /\ all_absent sh).
Proof.
  split; [|split].
  - intros line. eexists. apply parse_history_line_eq.
  - intros ish_text. unfold get_station_histories.
    rewrite get_station_histories_loop_eq. cbn [app].
    eexists. split; [reflexivity|].
    induction (skipn 22 (split_nl ish_text)) as [|l ls IH]; simpl;
      constructor; auto using parse_history_line_eq.
  - intros line H. exists (history_fields line).
    split; [apply parse_history_line_eq|].
    apply history_fields_no_numeric.
    destruct H as [H|H]; [now apply all_space_not_numeric | exact H].
Qed.

(** The empty line and a line of prose both load as all-absent records. *)
Lemma history_parser_total_witness :
  (exists sh, parse_history_line "" = Ok sh /\ all_absent sh)
  /\ (exists sh, parse_history_line "World Weather Records" = Ok sh
                 /\ all_absent sh).
Proof.
  split.
  - apply (proj2 (proj2 history_parser_total) ""). left. reflexivity.
  - apply (proj2 (proj2 history_parser_total) "World Weather Records").
    right. reflexivity.
Defined.

(** ** The daily-observation parser *)

Lemma flt_not_fge (x y : pyfloat) : flt x y = true -> fge x y = false.
Proof.
  unfold fge, fle, flt. destruct x as [a|a|], y as [b|b|]; try congruence.
  - rewrite <- (Qcompare_antisym a b).
    destruct (Qcompare a b); simpl; congruence.
  - destruct b; simpl; congruence.
  - destruct a; simpl; congruence.
  - destruct a, b; simpl; congruence.
Qed.

Lemma sentinel_ok (v : pyfloat) :
  sentinel_rule v (if flt v (FNum 9000) then v else nan).
Proof.
  unfold sentinel_rule. destruct (flt v (FNum 9000)) eqn:E.
  - pose proof (flt_not_fge _ _ E) as G. repeat split; congruence.
  - repeat split; try congruence; reflexivity.
Qed.

(** C2. When a daily-observation line parses, each of the three
    temperatures returned obeys the sentinel rule with respect to the
    value decoded from its slice: a decoded value >= 9000 comes back as
    not-a-number, a decoded value < 9000 comes back unchanged, and no
    value >= 9000 is ever returned. *)
Theorem gsod_sentinel (line : string) (d : date) (tm tx tn : pyfloat) :
  parse_gsod_line line = Ok (d, tm, tx, tn) ->
  exists vm vx vn,
    py_float (slice 25 30 line) = Ok vm
    /\ py_float (slice 102 108 line) = Ok vx
    /\ py_float (slice 110 116 line) = Ok vn
    /\ sentinel_rule vm tm /\ sentinel_rule vx tx /\ sentinel_rule vn tn.
Proof.
  unfold parse_gsod_line.
  destruct (py_float (slice 25 30 line)) as [vm|]; [|discriminate].
  destruct (py_float (slice 102 108 line)) as [vx|]; [|discriminate].
  destruct (py_float (slice 110 116 line)) as [vn|]; [|discriminate].
  cbn [bind].
  destruct (py_int (slice 14 18 line)); [|discriminate].
  destruct (py_int (slice 18 20 line)); [|discriminate].
  destruct (py_int (slice 20 22 line)); [|discriminate].
  cbn [bind].
  destruct (datetime_date v v0 v1); [|discriminate].
  cbn [bind]. intros H. inversion H; subst.
  exists vm, vx, vn. repeat split; try reflexivity; apply sentinel_ok.
Qed.

Lemma parse_gsod_line_err (line : string) (e : exn) :
  parse_gsod_line line = Err e -> e = ValueError.
Proof.
  unfold parse_gsod_line.
  destruct (py_float (slice 25 30 line)) as [vm|e1] eqn:E1; cbn [bind];
    [|intros H; inversion H; subst; eapply py_float_err; eauto].
  destruct (py_float (slice 102 108 line)) as [vx|e2] eqn:E2; cbn [bind];
    [|intros H; inversion H; subst; eapply py_float_err; eauto].
  destruct (py_float (slice 110 116 line)) as [vn|e3] eqn:E3; cbn [bind];
    [|intros H; inversion H; subst; eapply py_float_err; eauto].
  destruct (py_int (slice 14 18 line)) as [y|e4] eqn:E4; cbn [bind];
    [|intros H; inversion H; subst; eapply py_int_err; eauto].
  destruct (py_int (slice 18 20 line)) as [m|e5] eqn:E5; cbn [bind];
    [|intros H; inversion H; subst; eapply py_int_err; eauto].
  destruct (py_int (slice 20 22 line)) as [d|e6] eqn:E6; cbn [bind];
    [|intros H; inversion H; subst; eapply py_int_err; eauto].
  destruct (datetime_date y m d) as [dt|e7] eqn:E7; cbn [bind];
    [discriminate|].
  intros H; inversion H; subst.
  eapply datetime_date_err; [| | |exact E7];
    eapply py_int_fits; eauto; apply slice_le4; simpl; lia.
Qed.

Lemma parse_gsod_line_bad_date (line : string) :
  date_slices_valid (slice 14 18 line) (slice 18 20 line)
                    (slice 20 22 line) = false ->
  parse_gsod_line line = Err ValueError.
Proof.
  intros Hv. destruct (parse_gsod_line line) as [r|e] eqn:E.
  - exfalso. revert E Hv. unfold parse_gsod_line, date_slices_valid.
    destruct (py_float (slice 25 30 line)); [|discriminate].
    destruct (py_float (slice 102 108 line)); [|discriminate].
    destruct (py_float (slice 110 116 line)); [|discriminate].
    cbn [bind].
    destruct (py_int (slice 14 18 line)); [|discriminate].
    destruct (py_int (slice 18 20 line)); [|discriminate].
    destruct (py_int (slice 20 22 line)); [|discriminate].
    cbn [bind].
    destruct (datetime_date v2 v3 v4); [|discriminate].
    simpl. discriminate.
  - apply parse_gsod_line_err in E. now subst.
Qed.

(** ** The inner loop of the assembler *)

Lemma zip_rows_snoc (idx : list (Z * Z)) :
  forall (ms xs ns : list pyfloat) y d a b c,
    List.length ms = List.length idx ->
    List.length xs = List.length idx ->
    List.length ns = List.length idx ->
    zip_rows (idx ++ [(y, d)]) (ms ++ [a]) (xs ++ [b]) (ns ++ [c])
    = (zip_rows idx ms xs ns ++ [mkRow y d a b c])%list.
Proof.
  induction idx as [|[y0 d0] idx IH]; intros ms xs ns y d a b c Hm Hx Hn.
  - destruct ms, xs, ns; try discriminate. reflexivity.
  - destruct ms as [|m ms], xs as [|x xs], ns as [|n ns]; try discriminate.
    simpl in *. rewrite IH by lia. reflexivity.
Qed.

Lemma get_wban_lines_spec (year : Z) (lines : list string) :
  forall acc log,
    wf_columns acc ->
    exists acc',
      get_wban_lines year lines acc log
      = (acc', (log ++ flat_map warns_of_line lines)%list)
      /\ wf_columns acc'
      /\ pandas_DataFrame acc'
         = (pandas_DataFrame acc ++ flat_map (rows_of_line year) lines)%list.
Proof.
  induction lines as [|line rest IH]; intros acc log Hwf.
  - exists acc. simpl. rewrite !app_nil_r. auto.
  - cbn [get_wban_lines flat_map]. unfold rows_of_line at 1, warns_of_line at 1.
    destruct (parse_gsod_line line) as [[[[d a] b] c]|e].
    + set (acc1 := mkcolumns _ _ _ _).
      assert (Hwf1 : wf_columns acc1).
      { destruct Hwf as (H1 & H2 & H3). unfold wf_columns, acc1; simpl.
        rewrite !length_app; simpl. lia. }
      destruct (IH acc1 log Hwf1) as (acc' & Heq & Hwf' & Hdf).
      exists acc'. split; [exact Heq|]. split; [exact Hwf'|].
      rewrite Hdf. unfold pandas_DataFrame at 1, acc1; simpl.
      destruct Hwf as (H1 & H2 & H3).
      rewrite zip_rows_snoc by assumption.
      rewrite <- app_assoc. reflexivity.
    + destruct (IH acc (if (0 <? String.length line)%nat
                        then (log ++ [warn_line line])%list else log) Hwf)
        as (acc' & Heq & Hwf' & Hdf).
      exists acc'. split; [|auto].
      rewrite Heq. f_equal.
      destruct (0 <? String.length line)%nat; simpl;
        [rewrite <- app_assoc|]; reflexivity.
Qed.

Lemma wf_no_columns : wf_columns no_columns.
Proof. repeat split. Qed.

(** A line whose maximum is the sentinel 9999.9: the mean and minimum come
    back as decoded, the maximum as not-a-number. *)
Lemma gsod_sentinel_witness :
  exists vm vx vn,
    py_float (slice 25 30 line_jan2_missing) = Ok vm
    /\ py_float (slice 102 108 line_jan2_missing) = Ok vx
    /\ py_float (slice 110 116 line_jan2_missing) = Ok vn
    /\ sentinel_rule vm (FNum 11) /\ sentinel_rule vx FNaN
    /\ sentinel_rule vn (FNum 6).
Proof.
  apply (gsod_sentinel line_jan2_missing (mkdate 2000 1 2)
           (FNum 11) FNaN (FNum 6)).
  reflexivity.
Defined.

(** C4. A line whose date slices do not form a calendar date makes
    [parse_gsod_line] raise.  Whatever a line raises, the loop of the
    assembler catches it: the columns are left as they were, the message
    [Failed to parse line '...'] with the raw text of the line between
    the quotes is logged when and only when the line is not empty, and
    the loop goes on with the lines that follow, down to the last one.
    The raw line is read back from its message at offset 22. *)
Theorem gsod_bad_lines_skipped :
  (forall line,
      date_slices_valid (slice 14 18 line) (slice 18 20 line)
                        (slice 20 22 line) = false ->
      parse_gsod_line line = Err ValueError)
  /\ (forall year line rest acc log e,
        parse_gsod_line line = Err e ->
        get_wban_lines year (line :: rest) acc log
        = get_wban_lines year rest acc
            (if (0 <? String.length line)%nat
             then (log ++ [("Failed to parse line '" ++ line ++ "'")%string])%list
             else log))
  /\ (forall year lines acc log,
        wf_columns acc ->
        exists acc',
          get_wban_lines year lines acc log
          = (acc',
             (log ++ flat_map
                       (fun line =>
                          match parse_gsod_line line with
                          | Ok _ => []
                          | Err _ =>
                              if (0 <? String.length line)%nat
                              then [("Failed to parse line '" ++ line
                                       ++ "'")%string]
                              else []
                          end) lines)%list)
          /\ pandas_DataFrame acc'
             = (pandas_DataFrame acc
                  ++ flat_map (rows_of_line year) lines)%list)
  /\ (forall line,
        substring 22 (String.length line)
                  ("Failed to parse line '" ++ line ++ "'") = line).
Proof.
  split; [|split; [|split]].
  - exact parse_gsod_line_bad_date.
  - intros year line rest acc log e H. cbn [get_wban_lines].
    rewrite H. reflexivity.
  - intros year lines acc log Hwf.
    destruct (get_wban_lines_spec year lines acc log Hwf)
      as (acc' & Heq & _ & Hdf).
    exists acc'. split; [exact Heq|exact Hdf].
  - intros line. cbn [append substring]. apply substring_prefix.
Qed.

(** 30 February raises; in an archive it is logged with its text and
    skipped, the empty last line is skipped silently, and the lines
    around them are kept. *)
Lemma gsod_bad_lines_skipped_witness :
  parse_gsod_line line_feb30 = Err ValueError
  /\ get_wban_lines 2000 [""; line_jan1] no_columns []
     = get_wban_lines 2000 [line_jan1] no_columns []
  /\ exists acc',
       get_wban_lines 2000 [line_jan1; line_feb30; line_jan2_missing; ""]
                      no_columns []
       = (acc', ["Failed to parse line '" ++ line_feb30 ++ "'"])
       /\ pandas_DataFrame acc'
          = [mkRow 2000 1 (FNum 10) (FNum 15) (FNum 5);
             mkRow 2000 2 (FNum 11) FNaN (FNum 6)].
Proof.
  split; [|split].
  - apply (proj1 gsod_bad_lines_skipped line_feb30). reflexivity.
  - apply (proj1 (proj2 gsod_bad_lines_skipped) 2000 "" [line_jan1]
             no_columns [] ValueError).
    reflexivity.
  - apply (proj1 (proj2 (proj2 gsod_bad_lines_skipped)) 2000
             [line_jan1; line_feb30; line_jan2_missing; ""] no_columns []).
    repeat split.
Defined.

(** ** The assembler *)

Lemma archive_url_present (u w y : Z) :
  archive_url (Some u) (Some w) y = Ok (archive_url_text u w y).
Proof. reflexivity. Qed.

Lemma find_wban_some (wban : Z) (shs : list StationHistory) sh :
  find_wban wban shs = Some sh -> sh_wban sh = Some wban.
Proof.
  induction shs as [|s shs IH]; simpl; [discriminate|].
  destruct (wban_eq wban (sh_wban s)) eqn:E; [|exact IH].
  intros H. inversion H; subst. unfold wban_eq in E.
  destruct (sh_wban sh); [|discriminate].
  apply Z.eqb_eq in E. now subst.
Qed.

Lemma wban_eq_false (wban : Z) (w : option Z) :
  w <> Some wban -> wban_eq wban w = false.
Proof.
  unfold wban_eq. destruct w as [z|]; [|reflexivity].
  intros H. apply Z.eqb_neq. congruence.
Qed.

Lemma wban_eq_true (wban : Z) : wban_eq wban (Some wban) = true.
Proof. apply Z.eqb_refl. Qed.

Lemma find_wban_first (wban : Z) (l1 l2 : list StationHistory) sh :
  (forall s, In s l1 -> sh_wban s <> Some wban) ->
  sh_wban sh = Some wban ->
  find_wban wban (l1 ++ sh :: l2) = Some sh.
Proof.
  induction l1 as [|s l1 IH]; intros Hl Hsh; simpl.
  - rewrite Hsh, wban_eq_true. reflexivity.
  - rewrite wban_eq_false by (apply Hl; now left).
    apply IH; [|exact Hsh]. intros s' Hs'. apply Hl. now right.
Qed.

Lemma find_wban_none (wban : Z) (shs : list StationHistory) :
  (forall s, In s shs -> sh_wban s <> Some wban) ->
  find_wban wban shs = None.
Proof.
  induction shs as [|s shs IH]; intros H; simpl; [reflexivity|].
  rewrite wban_eq_false by (apply H; now left).
  apply IH. intros s' Hs'. apply H. now right.
Qed.

Lemma get_wban_years_spec (fetch : string -> result string)
    (sh : StationHistory) (u w : Z) (contents : Z -> string)
    (years : list Z) :
  sh_usaf sh = Some u -> sh_wban sh = Some w ->
  (forall y, In y years -> fetch (archive_url_text u w y) = Ok (contents y)) ->
  forall acc log,
    wf_columns acc ->
    exists acc',
      get_wban_years fetch sh years acc log
      = (Ok acc',
         (log ++ flat_map (fun y => warns_of_archive (contents y)) years)%list)
      /\ wf_columns acc'
      /\ pandas_DataFrame acc'
         = (pandas_DataFrame acc
              ++ flat_map (fun y => rows_of_archive y (contents y)) years)%list.
Proof.
  intros Hu Hw. induction years as [|y years IH]; intros Hf acc log Hwf.
  - exists acc. simpl. rewrite !app_nil_r. auto.
  - cbn [get_wban_years flat_map].
    rewrite Hu, Hw, archive_url_present. cbn [bind].
    rewrite (Hf y (or_introl eq_refl)).
    destruct (get_wban_lines_spec y (tl (split_nl (contents y))) acc log Hwf)
      as (acc1 & Heq1 & Hwf1 & Hdf1).
    rewrite Heq1.
    destruct (IH (fun y' Hy' => Hf y' (or_intror Hy')) acc1
                 (log ++ flat_map warns_of_line (tl (split_nl (contents y))))%list
                 Hwf1)
      as (acc' & Heq & Hwf' & Hdf).
    exists acc'. split; [|split; [exact Hwf'|]].
    + rewrite Heq. unfold warns_of_archive. now rewrite <- app_assoc.
    + rewrite Hdf, Hdf1. unfold rows_of_archive. now rewrite <- app_assoc.
Qed.

Lemma xrange_inclusive (a b y : Z) : In y (xrange a (b + 1)) <-> a <= y <= b.
Proof.
  unfold xrange. rewrite in_map_iff. split.
  - intros (i & <- & Hi). apply in_seq in Hi. lia.
  - intros H. exists (Z.to_nat (y - a)). split; [lia|].
    apply in_seq. lia.
Qed.

(** C1, as the code has it.  When the first record matching [wban] has
    its dates and its [usaf], and every archive of the years from
    [begin.year] to [end.year] inclusive is fetched, the table holds, year
    after year and line after line, exactly one row for each line (after
    the header) that parsed, keyed by the archive's year and the day of
    the year of the line's date; a line that did not parse gives no row,
    and is logged when it is not empty.  The keys need not be distinct. *)
Theorem get_wban_table (fetch : string -> result string) (wban : Z)
    (station_histories : list StationHistory) (sh : StationHistory)
    (b e : date) (u : Z) (contents : Z -> string) :
  find_wban wban station_histories = Some sh ->
  sh_begin sh = Some b -> sh_end sh = Some e -> sh_usaf sh = Some u ->
  (forall y, year b <= y <= year e ->
             fetch (archive_url_text u wban y) = Ok (contents y)) ->
  get_wban fetch wban station_histories
  = (Ok (flat_map (fun y => rows_of_archive y (contents y))
                  (xrange (year b) (year e + 1))),
     flat_map (fun y => warns_of_archive (contents y))
              (xrange (year b) (year e + 1))).
Proof.
  intros Hfind Hb He Hu Hf. unfold get_wban.
  rewrite Hfind, Hb, He. cbn [attr_year bind].
  destruct (get_wban_years_spec fetch sh u wban contents
              (xrange (year b) (year e + 1)) Hu
              (find_wban_some _ _ _ Hfind)
              (fun y Hy => Hf y (proj1 (xrange_inclusive _ _ _) Hy))
              no_columns [] wf_no_columns)
    as (acc' & Heq & _ & Hdf).
  rewrite Heq. cbn [bind app]. rewrite Hdf. reflexivity.
Qed.

(** Two years of archives with one malformed line each: the table holds
    the three lines that parse, and both malformed lines are logged. *)
Lemma get_wban_table_witness :
  get_wban fetch_two_years 12345 [sample_station 2000 2001]
  = (Ok [mkRow 2000 1 (FNum 10) (FNum 15) (FNum 5);
         mkRow 2000 2 (FNum 11) FNaN (FNum 6);
         mkRow 2001 60 (FNum (41 # 2)) (FNum 25) (FNum (-3 # 2))],
     [warn_line line_feb30; warn_line "not an observation"]).
Proof.
  apply (get_wban_table fetch_two_years 12345 [sample_station 2000 2001]
           (sample_station 2000 2001) (mkdate 2000 1 1) (mkdate 2001 12 31)
           123456 contents_two_years);
    try reflexivity.
  simpl. intros y Hy.
  assert (Hc : y = 2000 \/ y = 2001) by lia.
  destruct Hc as [->| ->]; reflexivity.
Defined.

(** The keys of the table are not always distinct: an archive that lists
    one day twice gives two rows with one key. *)
Lemma get_wban_keys_repeat :
  exists table,
    fst (get_wban fetch_repeated 12345 [sample_station 2000 2000]) = Ok table
    /\ ~ NoDup (map row_key table).
Proof.
  eexists. split; [reflexivity|].
  intros H. inversion H as [|k ks Hin _]; subst.
  apply Hin. now left.
Qed.

Lemma find_wban_none_inv (wban : Z) (shs : list StationHistory) :
  find_wban wban shs = None ->
  forall s, In s shs -> sh_wban s <> Some wban.
Proof.
  induction shs as [|a l IH]; simpl; [intros _ s []|].
  destruct (wban_eq wban (sh_wban a)) eqn:E; [discriminate|].
  intros H s [<-|Hs]; [|now apply IH].
  intros Hw. rewrite Hw, wban_eq_true in E. discriminate.
Qed.

Lemma archive_url_err (usaf wban : option Z) (year : Z) (e : exn) :
  archive_url usaf wban year = Err e -> e = TypeError.
Proof.
  unfold archive_url, archive_filename.
  destruct usaf, wban; cbn; intros H; inversion H; reflexivity.
Qed.

Lemma get_wban_years_err (fetch : string -> result string)
    (sh : StationHistory) (years : list Z) :
  forall acc log e log',
    get_wban_years fetch sh years acc log = (Err e, log') ->
    e = TypeError \/ exists url, fetch url = Err e.
Proof.
  induction years as [|y years IH]; intros acc log e log'.
  - simpl. discriminate.
  - cbn [get_wban_years].
    destruct (archive_url (sh_usaf sh) (sh_wban sh) y) as [url|x] eqn:U.
    + cbn [bind]. destruct (fetch url) as [content|x] eqn:F.
      * destruct (get_wban_lines y (tl (split_nl content)) acc log)
          as [acc1 log1].
        apply IH.
      * intros H. inversion H; subst. right. now exists url.
    + cbn [bind]. intros H. inversion H; subst. left.
      now apply archive_url_err in U.
Qed.

(** C5. The lookup returns the first record whose [wban] is the requested
    code, and [get_wban] works on that record: its years and its numbers
    are the ones the archives are fetched for, whatever records stand
    before and after it.  When no record has the code, [get_wban] raises
    the one exception whose message names the code, whatever the network
    would answer, and logs nothing.  When a record has the code, whatever
    [get_wban] raises comes from the fields of that record or from the
    network. *)
Theorem station_lookup :
  (forall wban l1 sh l2,
      (forall s, In s l1 -> sh_wban s <> Some wban) ->
      sh_wban sh = Some wban ->
      find_wban wban (l1 ++ sh :: l2) = Some sh)
  /\ (forall fetch wban station_histories,
        (forall s, In s station_histories -> sh_wban s <> Some wban) ->
        get_wban fetch wban station_histories
        = (Err (Exception_ ("Couldn't find wban " ++ format_s wban
                              ++ " in station histories.")), []))
  /\ (forall fetch wban l1 sh l2,
        (forall s, In s l1 -> sh_wban s <> Some wban) ->
        sh_wban sh = Some wban ->
        get_wban fetch wban (l1 ++ sh :: l2)
        = match (b <- attr_year (sh_begin sh) ;;
                 e <- attr_year (sh_end sh) ;;
                 Ok (xrange b (e + 1))) with
          | Err e => (Err e, [])
          | Ok years =>
              let '(r, log) :=
                get_wban_years fetch sh years no_columns [] in
              (c <- r ;; Ok (pandas_DataFrame c), log)
          end)
  /\ (forall fetch wban station_histories e log,
        get_wban fetch wban station_histories = (Err e, log) ->
        ((forall s, In s station_histories -> sh_wban s <> Some wban)
         /\ e = Exception_ ("Couldn't find wban " ++ format_s wban
                              ++ " in station histories.")
         /\ log = [])
        \/ ((exists sh, find_wban wban station_histories = Some sh)
            /\ (e = AttributeError \/ e = TypeError
                \/ exists url, fetch url = Err e))).
Proof.
  split; [|split; [|split]].
  - intros wban l1 sh l2. apply find_wban_first.
  - intros fetch wban shs H. unfold get_wban.
    rewrite (find_wban_none _ _ H). reflexivity.
  - intros fetch wban l1 sh l2 Hl Hsh. unfold get_wban.
    rewrite (find_wban_first _ _ _ _ Hl Hsh). reflexivity.
  - intros fetch wban shs e log. unfold get_wban.
    destruct (find_wban wban shs) as [sh|] eqn:F.
    + intros H. right. split; [now exists sh|].
      destruct (sh_begin sh) as [b|]; cbn [attr_year bind] in H;
        [|inversion H; auto].
      destruct (sh_end sh) as [e'|]; cbn [attr_year bind] in H;
        [|inversion H; auto].
      destruct (get_wban_years fetch sh (xrange (year b) (year e' + 1))
                  no_columns []) as [r log'] eqn:G.
      destruct r as [c|x]; cbn [bind] in H; inversion H; subst.
      right. eapply get_wban_years_err. exact G.
    + intros H. inversion H; subst. left.
      split; [now apply find_wban_none_inv|]. split; reflexivity.
Qed.

(** Of two records with the code the first is found; a code the directory
    does not hold is named in the message; and the table is the one of
    the first record with the code, not of the records around it. *)
Lemma station_lookup_witness :
  find_wban 12345 ([sample_station 1990 1991]
                     ++ sample_station 2000 2001
                     :: [sample_station 2010 2011])
  = Some (sample_station 1990 1991)
  /\ get_wban fetch_two_years 54321 [sample_station 2000 2001]
     = (Err (Exception_ "Couldn't find wban 54321 in station histories."),
        [])
  /\ get_wban fetch_two_years 12345
       ([other_station] ++ sample_station 2000 2001
                        :: [sample_station 2010 2011])
     = (Ok [mkRow 2000 1 (FNum 10) (FNum 15) (FNum 5);
            mkRow 2000 2 (FNum 11) FNaN (FNum 6);
            mkRow 2001 60 (FNum (41 # 2)) (FNum 25) (FNum (-3 # 2))],
        ["Failed to parse line '" ++ line_feb30 ++ "'";
         "Failed to parse line 'not an observation'"]).
Proof.
  split; [|split].
  - apply (proj1 station_lookup 12345 [] (sample_station 1990 1991)
             [sample_station 2000 2001; sample_station 2010 2011]).
    + intros s [].
    + reflexivity.
  - apply (proj1 (proj2 station_lookup) fetch_two_years 54321
             [sample_station 2000 2001]).
    intros s [<-|[]]. discriminate.
  - rewrite (proj1 (proj2 (proj2 station_lookup)) fetch_two_years 12345
               [other_station] (sample_station 2000 2001)
               [sample_station 2010 2011]).
    + vm_compute. reflexivity.
    + intros s [<-|[]]. discriminate.
    + reflexivity.
Defined.

(** C7. The file name of station 123456-12345 for 1999. *)
Theorem archive_filename_example :
  archive_filename (Some 123456) (Some 12345) 1999
  = Ok "123456-12345-1999.op.gz".
Proof. reflexivity. Qed.

(** C9. Nothing checks the matched record before its fields are used.
    An absent [begin] or [end] makes [get_wban] raise the attribute error,
    not the station-not-found exception, before anything is fetched.  The
    file name cannot be formatted from an absent [usaf]: the formatting
    raises a type error, and so does [get_wban] as soon as it formats the
    name of the first year. *)
Theorem get_wban_unguarded :
  (forall fetch wban station_histories sh,
      find_wban wban station_histories = Some sh ->
      sh_begin sh = None \/ sh_end sh = None ->
      get_wban fetch wban station_histories = (Err AttributeError, []))
  /\ (forall w year, archive_filename None w year = Err TypeError)
  /\ (forall fetch wban station_histories sh b e,
        find_wban wban station_histories = Some sh ->
        sh_begin sh = Some b -> sh_end sh = Some e ->
        sh_usaf sh = None -> year b <= year e ->
        get_wban fetch wban station_histories = (Err TypeError, [])).
Proof.
  split; [|split].
  - intros fetch wban shs sh Hfind H. unfold get_wban. rewrite Hfind.
    destruct (sh_begin sh) as [b|]; cbn [attr_year bind]; [|reflexivity].
    destruct H as [H|H]; [discriminate|]. rewrite H. reflexivity.
  - reflexivity.
  - intros fetch wban shs sh b e Hfind Hb He Hu Hle. unfold get_wban.
    rewrite Hfind, Hb, He. cbn [attr_year bind]. unfold xrange.
    destruct (Z.to_nat (year e + 1 - year b)) as [|n] eqn:En; [lia|].
    cbn [seq map get_wban_years]. rewrite Hu. reflexivity.
Qed.

(** A station whose dates did not parse, and one whose [usaf] did not. *)
Lemma get_wban_unguarded_witness :
  get_wban fetch_two_years 12345
    [mkStationHistory (Some 123456) (Some 12345) "" "" "" None None None
       None (Some (mkdate 2001 12 31))]
  = (Err AttributeError, [])
  /\ get_wban fetch_two_years 12345
       [mkStationHistory None (Some 12345) "" "" "" None None None
          (Some (mkdate 2000 1 1)) (Some (mkdate 2001 12 31))]
     = (Err TypeError, []).
Proof.
  split.
  - eapply (proj1 get_wban_unguarded); [reflexivity|].
    left. reflexivity.
  - eapply (proj2 (proj2 get_wban_unguarded)); try reflexivity.
    simpl. lia.
Defined.

(** C10. A line that parses is appended under the year of the archive
    being read and the day of the year of the line's own date; the year
    written in the line is not used.  So every row an archive contributes
    carries the archive's year, and a line dated in another year is filed
    under the archive's year with that other date's day of the year. *)
Theorem rows_keyed_by_archive_year :
  (forall year line rest acc log d a b c,
      parse_gsod_line line = Ok (d, a, b, c) ->
      get_wban_lines year (line :: rest) acc log
      = get_wban_lines year rest
          (mkcolumns (t_mean_list acc ++ [a]) (t_max_list acc ++ [b])
                     (t_min_list acc ++ [c])
                     (idx_list acc ++ [(year, tm_yday d)]))
          log)
  /\ (forall year lines,
        Forall (fun r => row_year r = year)
               (pandas_DataFrame (fst (get_wban_lines year lines
                                         no_columns []))))
  /\ pandas_DataFrame (fst (get_wban_lines 2000 [line_prev_year]
                              no_columns []))
     = [mkRow 2000 365 (FNum 1) (FNum 2) (FNum 0)].
Proof.
  split; [|split].
  - intros year line rest acc log d a b c H. cbn [get_wban_lines].
    rewrite H. reflexivity.
  - intros year lines.
    destruct (get_wban_lines_spec year lines no_columns [] wf_no_columns)
      as (acc' & Heq & _ & Hdf).
    rewrite Heq. cbn [fst]. rewrite Hdf. cbn [app pandas_DataFrame].
    apply Forall_forall. intros r Hr. apply in_flat_map in Hr.
    destruct Hr as (line & _ & Hr). unfold rows_of_line in Hr.
    destruct (parse_gsod_line line) as [[[[d a] b] c]|]; [|contradiction].
    destruct Hr as [<-|[]]. reflexivity.
  - reflexivity.
Qed.

(** The line of 31 December 1999 read from the archive of 2000. *)
Lemma rows_keyed_by_archive_year_witness :
  get_wban_lines 2000 [line_prev_year] no_columns []
  = get_wban_lines 2000 []
      (mkcolumns [FNum 1] [FNum 2] [FNum 0] [(2000, 365)]) [].
Proof.
  apply (proj1 rows_keyed_by_archive_year 2000 line_prev_year []
           no_columns [] (mkdate 1999 12 31) (FNum 1) (FNum 2) (FNum 0)).
  reflexivity.
Defined.

(** ** The order of floats *)

Lemma fle_num (a b : Q) : fle (FNum a) (FNum b) = true <-> (a <= b)%Q.
Proof.
  simpl. rewrite Qle_alt. destruct (Qcompare a b); split; congruence.
Qed.

Lemma flt_num (a b : Q) : flt (FNum a) (FNum b) = true <-> (a < b)%Q.
Proof.
  simpl. rewrite Qlt_alt. destruct (Qcompare a b); split; congruence.
Qed.

Lemma fle_refl (x : pyfloat) : not_nan x = true -> fle x x = true.
Proof.
  destruct x as [a|n|]; [| |discriminate]; intros _.
  - apply fle_num. apply Qle_refl.
  - destruct n; reflexivity.
Qed.

Lemma fle_trans (x y z : pyfloat) :
  fle x y = true -> fle y z = true -> fle x z = true.
Proof.
  destruct x as [a|a|], y as [b|b|], z as [c|c|]; try discriminate.
  1: rewrite !fle_num; apply Qle_trans.
  all: simpl; repeat match goal with n : bool |- _ => destruct n end;
    simpl; congruence.
Qed.

Lemma flt_fle (x y : pyfloat) : flt x y = true -> fle x y = true.
Proof.
  destruct x as [a|a|], y as [b|b|]; try discriminate.
  1: rewrite flt_num, fle_num; apply Qlt_le_weak.
  all: simpl; repeat match goal with n : bool |- _ => destruct n end;
    simpl; congruence.
Qed.

Lemma not_flt_fle (x y : pyfloat) :
  not_nan x = true -> not_nan y = true ->
  flt x y = false -> fle y x = true.
Proof.
  destruct x as [a|a|], y as [b|b|]; try discriminate; intros _ _.
  1: { intros H. apply fle_num. apply Qnot_lt_le. intros L.
       apply flt_num in L. congruence. }
  all: simpl; repeat match goal with n : bool |- _ => destruct n end;
    simpl; congruence.
Qed.

(** ** Extremes that skip not-a-number *)

Section Extremes.
Variable pick : pyfloat -> pyfloat -> pyfloat.
Variable below : pyfloat -> pyfloat -> bool.
Hypothesis pick_either : forall x y, pick x y = x \/ pick x y = y.
Hypothesis pick_left :
  forall x y, not_nan x = true -> not_nan y = true ->
              below x (pick x y) = true.
Hypothesis pick_right :
  forall x y, not_nan x = true -> not_nan y = true ->
              below y (pick x y) = true.
Hypothesis below_refl : forall x, not_nan x = true -> below x x = true.
Hypothesis below_trans :
  forall x y z, below x y = true -> below y z = true -> below x z = true.

Lemma fold_pick_spec (xs : list pyfloat) :
  forall x,
    not_nan x = true -> Forall (fun y => not_nan y = true) xs ->
    not_nan (fold_left pick xs x) = true
    /\ In (fold_left pick xs x) (x :: xs)
    /\ below x (fold_left pick xs x) = true
    /\ (forall y, In y xs -> below y (fold_left pick xs x) = true).
Proof.
  induction xs as [|y ys IH]; intros x Hx Hxs.
  - simpl. repeat split; auto; intros y [].
  - inversion Hxs as [|? ? Hy Hys]; subst. cbn [fold_left].
    assert (Hp : not_nan (pick x y) = true)
      by (destruct (pick_either x y) as [-> | ->]; assumption).
    destruct (IH (pick x y) Hp Hys) as (Hn & Hin & Hb & Hall).
    split; [exact Hn|]. split; [|split].
    + destruct Hin as [Hin|Hin].
      * rewrite <- Hin.
        destruct (pick_either x y) as [-> | ->]; simpl; auto.
      * simpl. auto.
    + eapply below_trans; [apply (pick_left x y Hx Hy)|exact Hb].
    + intros z [<-|Hz].
      * eapply below_trans; [apply (pick_right x y Hx Hy)|exact Hb].
      * apply Hall, Hz.
Qed.

Lemma pick_series_spec (l : list pyfloat) :
  let m := match filter not_nan l with
           | [] => FNaN
           | x :: xs => fold_left pick xs x
           end in
  (has_value l ->
   not_nan m = true /\ In m l
   /\ forall x, In x l -> not_nan x = true -> below x m = true)
  /\ (~ has_value l -> is_nan m = true).
Proof.
  cbv zeta. destruct (filter not_nan l) as [|x xs] eqn:E.
  - split; [|reflexivity].
    intros (x & Hin & Hx). exfalso.
    assert (H : In x (filter not_nan l)) by (apply filter_In; auto).
    rewrite E in H. exact H.
  - assert (Hall : Forall (fun y => not_nan y = true) (x :: xs)).
    { rewrite <- E. apply Forall_forall. intros y Hy.
      apply filter_In in Hy. tauto. }
    inversion Hall as [|? ? Hx Hxs]; subst.
    destruct (fold_pick_spec xs x Hx Hxs) as (Hn & Hin & Hb & Hrest).
    split.
    + intros _. split; [exact Hn|]. split.
      * assert (H : In (fold_left pick xs x) (filter not_nan l))
          by (rewrite E; exact Hin).
        apply filter_In in H. tauto.
      * intros y Hy Hny.
        assert (H : In y (filter not_nan l)) by (apply filter_In; auto).
        rewrite E in H. destruct H as [<-|H]; auto.
    + intros Hno. exfalso. apply Hno. exists x. split; [|exact Hx].
      assert (H : In x (filter not_nan l)) by (rewrite E; now left).
      apply filter_In in H. tauto.
Qed.
End Extremes.

Lemma series_max_spec (l : list pyfloat) : max_ignoring_nan l (series_max l).
Proof.
  apply (pick_series_spec fmax2 fle).
  - intros x y. unfold fmax2. destruct (flt x y); auto.
  - intros x y Hx Hy. unfold fmax2. destruct (flt x y) eqn:E.
    + now apply flt_fle.
    + now apply fle_refl.
  - intros x y Hx Hy. unfold fmax2. destruct (flt x y) eqn:E.
    + now apply fle_refl.
    + now apply not_flt_fle.
  - exact fle_refl.
  - exact fle_trans.
Qed.

Lemma series_min_spec (l : list pyfloat) : min_ignoring_nan l (series_min l).
Proof.
  apply (pick_series_spec fmin2 (fun x m => fle m x)).
  - intros x y. unfold fmin2. destruct (flt y x); auto.
  - intros x y Hx Hy. unfold fmin2. destruct (flt y x) eqn:E.
    + now apply flt_fle.
    + now apply fle_refl.
  - intros x y Hx Hy. unfold fmin2. destruct (flt y x) eqn:E.
    + now apply fle_refl.
    + now apply not_flt_fle.
  - exact fle_refl.
  - intros x y z H1 H2. eapply fle_trans; eauto.
Qed.

(** ** Grouping by year *)

Lemma insert_year_in (y z : Z) (ys : list Z) :
  In z (insert_year y ys) <-> z = y \/ In z ys.
Proof.
  induction ys as [|w ws IH]; simpl.
  - intuition.
  - destruct (y <? w) eqn:E1; [simpl; intuition|].
    destruct (y =? w) eqn:E2.
    + apply Z.eqb_eq in E2. subst. simpl. intuition.
    + simpl. rewrite IH. intuition.
Qed.

Lemma insert_year_hd (y z : Z) (zs : list Z) :
  z < y -> HdRel Z.lt z zs -> HdRel Z.lt z (insert_year y zs).
Proof.
  intros Hzy H. destruct zs as [|w ws]; simpl.
  - now constructor.
  - inversion H; subst.
    destruct (y <? w); [now constructor|].
    destruct (y =? w); now constructor.
Qed.

Lemma insert_year_sorted (y : Z) (ys : list Z) :
  Sorted Z.lt ys -> Sorted Z.lt (insert_year y ys).
Proof.
  induction ys as [|w ws IH]; intros H; simpl.
  - repeat constructor.
  - inversion H as [|? ? Hs Hh]; subst.
    destruct (y <? w) eqn:E1.
    + apply Z.ltb_lt in E1. constructor; [exact H|now constructor].
    + destruct (y =? w) eqn:E2; [exact H|].
      apply Z.ltb_ge in E1. apply Z.eqb_neq in E2.
      constructor; [now apply IH|].
      apply insert_year_hd; [lia|exact Hh].
Qed.

Lemma group_years_sorted (data : DataFrame) : Sorted Z.lt (group_years data).
Proof.
  unfold group_years. induction (map row_year data) as [|y ys IH]; simpl.
  - constructor.
  - now apply insert_year_sorted.
Qed.

Lemma group_years_in (data : DataFrame) (y : Z) :
  In y (group_years data) <-> exists r, In r data /\ row_year r = y.
Proof.
  unfold group_years. induction data as [|r data IH]; simpl.
  - split; [intros []|intros (r & [] & _)].
  - rewrite insert_year_in, IH. split.
    + intros [->|(r' & Hr' & <-)]; eauto.
    + intros (r' & [<-|Hr'] & <-); eauto.
Qed.

Lemma aggregate_groupby (agg : list pyfloat -> pyfloat) (data : DataFrame) :
  aggregate agg (groupby_year data) = annual_frame agg data.
Proof.
  unfold aggregate, groupby_year, annual_frame. rewrite map_map.
  reflexivity.
Qed.

(** C6. [process_data] reports the largest maximum, the largest mean, the
    smallest minimum and the smallest mean of the table, rows that are
    not-a-number left aside.  It then keeps the rows with no not-a-number
    entry, and for each year that still has a row, in increasing order of
    the years, gives the mean pandas takes, the largest and the smallest
    entry of each of the three columns over that year's rows.  On the
    table of the rows (2000, 1, 10, 15, 5) and (2001, 1, NaN, NaN, NaN)
    the four records are those of the first row and the three annual
    frames hold the year 2000 alone, the frame of means with the means of
    the one-entry columns 10, 15 and 5. *)
Theorem process_data_report (series_mean : list pyfloat -> pyfloat) :
  (forall data,
      max_ignoring_nan (map t_max data)
                       (record_high (process_data series_mean data))
      /\ max_ignoring_nan (map t_mean data)
                          (record_high_mean (process_data series_mean data))
      /\ min_ignoring_nan (map t_min data)
                          (record_low (process_data series_mean data))
      /\ min_ignoring_nan (map t_mean data)
                          (record_low_mean (process_data series_mean data)))
  /\ (forall data r,
        In r (dropna data) <->
        In r data /\ is_nan (t_mean r) = false /\ is_nan (t_max r) = false
        /\ is_nan (t_min r) = false)
  /\ (forall data,
        annual_mean (process_data series_mean data)
        = annual_frame series_mean (dropna data)
        /\ annual_max (process_data series_mean data)
           = annual_frame series_max (dropna data)
        /\ annual_min (process_data series_mean data)
           = annual_frame series_min (dropna data))
  /\ (forall data,
        Sorted Z.lt (group_years (dropna data))
        /\ forall y, In y (group_years (dropna data)) <->
                     exists r, In r (dropna data) /\ row_year r = y)
  /\ (forall l, max_ignoring_nan l (series_max l)
                /\ min_ignoring_nan l (series_min l))
  /\ process_data series_mean sample_table
     = mkReport (FNum 15) (FNum 10) (FNum 5) (FNum 10)
         [mkAnnualRow 2000 (series_mean [FNum 10]) (series_mean [FNum 15])
                      (series_mean [FNum 5])]
         [mkAnnualRow 2000 (FNum 10) (FNum 15) (FNum 5)]
         [mkAnnualRow 2000 (FNum 10) (FNum 15) (FNum 5)].
Proof.
  split; [|split; [|split; [|split; [|split]]]].
  - intros data. unfold process_data; cbn [record_high record_high_mean
      record_low record_low_mean].
    split; [apply series_max_spec|].
    split; [apply series_max_spec|].
    split; apply series_min_spec.
  - intros data r. unfold dropna, row_clean, not_nan.
    rewrite filter_In, !andb_true_iff, !negb_true_iff. tauto.
  - intros data. unfold process_data; cbn [annual_mean annual_max annual_min].
    rewrite !aggregate_groupby. auto.
  - intros data. split; [apply group_years_sorted|].
    intros y. apply group_years_in.
  - intros l. split; [apply series_max_spec|apply series_min_spec].
  - reflexivity.
Qed.

(** On the sample table the record high is a number of the table, and
    the years of the frame of means are the year 2000 alone. *)
Lemma process_data_report_witness :
  (not_nan (record_high (process_data mean_of_one sample_table)) = true
   /\ In (record_high (process_data mean_of_one sample_table))
         (map t_max sample_table)
   /\ forall x, In x (map t_max sample_table) -> not_nan x = true ->
                fle x (record_high (process_data mean_of_one sample_table))
                = true)
  /\ map an_year (annual_mean (process_data mean_of_one sample_table))
     = [2000].
Proof.
  split.
  - apply (proj1 (proj1 (proj1 (process_data_report mean_of_one)
                           sample_table))).
    exists (FNum 15). split; [left|]; reflexivity.
  - rewrite (proj2 (proj2 (proj2 (proj2 (proj2
               (process_data_report mean_of_one)))))).
    reflexivity.
Defined.

(** * Further properties of the code *)

(** ** Lines too short to hold an observation *)

Lemma substring_past_end (s : string) :
  forall a m, (String.length s <= a)%nat -> substring a m s = "".
Proof.
  induction s as [|c s IH]; intros a m H.
  - destruct a, m; reflexivity.
  - destruct a as [|a]; simpl in H; [lia|].
    simpl. apply IH. lia.
Qed.

Lemma slice_past_end (a b : nat) (s : string) :
  (String.length s <= a)%nat -> slice a b s = "".
Proof. apply substring_past_end. Qed.

Lemma short_line_raises (line : string) :
  (String.length line <= 110)%nat -> parse_gsod_line line = Err ValueError.
Proof.
  intros H. destruct (parse_gsod_line line) as [r|e] eqn:E.
  - exfalso. revert E. unfold parse_gsod_line.
    rewrite (slice_past_end 110 116 line H).
    destruct (py_float (slice 25 30 line)); [|discriminate].
    destruct (py_float (slice 102 108 line)); discriminate.
  - apply parse_gsod_line_err in E. now subst.
Qed.

(** X1. [parse_gsod_line] needs the slice of the minimum, which starts at
    offset 110: a line of at most 110 characters, the empty line included,
    raises [ValueError]. *)
Theorem parse_gsod_line_short (line : string) :
  (String.length line <= 110)%nat -> parse_gsod_line line = Err ValueError.
Proof. exact (short_line_raises line). Qed.

Lemma parse_gsod_line_short_witness :
  parse_gsod_line "" = Err ValueError
  /\ parse_gsod_line "HEADER" = Err ValueError.
Proof.
  split.
  - apply (parse_gsod_line_short ""). simpl. lia.
  - apply (parse_gsod_line_short "HEADER"). simpl. lia.
Defined.

(** ** Dates and days of the year *)

Lemma datetime_date_ok (y m d : Z) (dt : date) :
  datetime_date y m d = Ok dt -> dt = mkdate y m d /\ valid_date dt.
Proof.
  unfold datetime_date.
  destruct (negb _); [discriminate|].
  destruct (_ && _)%bool eqn:E; [|discriminate].
  intros H. inversion H; subst. split; [reflexivity|].
  repeat (apply andb_true_iff in E; destruct E as [E ?]).
  unfold valid_date; simpl.
  repeat match goal with H : (_ <=? _) = true |- _ => apply Z.leb_le in H end.
  lia.
Qed.

Lemma month_cases (m : Z) :
  1 <= m <= 12 ->
  m = 1 \/ m = 2 \/ m = 3 \/ m = 4 \/ m = 5 \/ m = 6 \/ m = 7 \/ m = 8
  \/ m = 9 \/ m = 10 \/ m = 11 \/ m = 12.
Proof. lia. Qed.

Lemma days_before_table (y : Z) :
  let f := if is_leap y then 1 else 0 in
  days_before y 0 = 0 /\ days_before y 1 = 31 /\ days_before y 2 = 59 + f
  /\ days_before y 3 = 90 + f /\ days_before y 4 = 120 + f
  /\ days_before y 5 = 151 + f /\ days_before y 6 = 181 + f
  /\ days_before y 7 = 212 + f /\ days_before y 8 = 243 + f
  /\ days_before y 9 = 273 + f /\ days_before y 10 = 304 + f
  /\ days_before y 11 = 334 + f.
Proof.
  cbv [days_before days_in_month Z.of_nat Pos.of_succ_nat Pos.succ].
  destruct (is_leap y); repeat split.
Qed.

Ltac eval_month :=
  unfold tm_yday, days_in_month in *; cbn [year month day] in *;
  repeat match goal with
    | |- context [Z.to_nat (?c - 1)] =>
        let n := eval vm_compute in (Z.to_nat (c - 1)) in
        change (Z.to_nat (c - 1)) with n
    end.

Lemma tm_yday_range (d : date) :
  valid_date d -> 1 <= tm_yday d <= days_in_year (year d).
Proof.
  destruct d as [y m dd]. unfold valid_date, days_in_year.
  cbn [year month day]. intros (_ & Hm & Hd).
  destruct (days_before_table y)
    as (T0 & T1 & T2 & T3 & T4 & T5 & T6 & T7 & T8 & T9 & T10 & T11).
  destruct (month_cases m Hm) as
    [->|[->|[->|[->|[->|[->|[->|[->|[->|[->|[->| ->]]]]]]]]]]];
    eval_month;
    rewrite ?T0, ?T1, ?T2, ?T3, ?T4, ?T5, ?T6, ?T7, ?T8, ?T9, ?T10, ?T11;
    destruct (is_leap y); lia.
Qed.

Lemma tm_yday_injective (d1 d2 : date) :
  valid_date d1 -> valid_date d2 -> year d1 = year d2 ->
  tm_yday d1 = tm_yday d2 -> d1 = d2.
Proof.
  destruct d1 as [y m1 dd1], d2 as [y2 m2 dd2].
  unfold valid_date. cbn [year month day].
  intros (_ & Hm1 & Hd1) (_ & Hm2 & Hd2) <-.
  destruct (days_before_table y)
    as (T0 & T1 & T2 & T3 & T4 & T5 & T6 & T7 & T8 & T9 & T10 & T11).
  destruct (month_cases m1 Hm1) as
    [->|[->|[->|[->|[->|[->|[->|[->|[->|[->|[->| ->]]]]]]]]]]];
    destruct (month_cases m2 Hm2) as
      [->|[->|[->|[->|[->|[->|[->|[->|[->|[->|[->| ->]]]]]]]]]]];
    eval_month;
    rewrite ?T0, ?T1, ?T2, ?T3, ?T4, ?T5, ?T6, ?T7, ?T8, ?T9, ?T10, ?T11;
    destruct (is_leap y);
    intros H; first [f_equal; lia | exfalso; lia].
Qed.

Lemma parse_gsod_line_date (line : string) d a b c :
  parse_gsod_line line = Ok (d, a, b, c) ->
  exists y m dd,
    py_int (slice 14 18 line) = Ok y /\ py_int (slice 18 20 line) = Ok m
    /\ py_int (slice 20 22 line) = Ok dd /\ datetime_date y m dd = Ok d.
Proof.
  unfold parse_gsod_line.
  destruct (py_float (slice 25 30 line)); [|discriminate].
  destruct (py_float (slice 102 108 line)); [|discriminate].
  destruct (py_float (slice 110 116 line)); [|discriminate].
  cbn [bind].
  destruct (py_int (slice 14 18 line)) as [y|]; [|discriminate].
  destruct (py_int (slice 18 20 line)) as [m|]; [|discriminate].
  destruct (py_int (slice 20 22 line)) as [dd|]; [|discriminate].
  cbn [bind].
  destruct (datetime_date y m dd) as [dt|] eqn:E; [|discriminate].
  cbn [bind]. intros H. inversion H; subst. exists y, m, dd. auto.
Qed.

(** X2. The date of a line that parses is a calendar date, made of the
    three integers its slices hold, and its day of the year lies between 1
    and the number of days of its year. *)
Theorem parse_gsod_line_valid_date (line : string) (d : date)
    (a b c : pyfloat) :
  parse_gsod_line line = Ok (d, a, b, c) ->
  py_int (slice 14 18 line) = Ok (year d)
  /\ py_int (slice 18 20 line) = Ok (month d)
  /\ py_int (slice 20 22 line) = Ok (day d)
  /\ valid_date d
  /\ 1 <= tm_yday d <= days_in_year (year d).
Proof.
  intros H. destruct (parse_gsod_line_date _ _ _ _ _ H)
    as (y & m & dd & Hy & Hm & Hd & Hdt).
  apply datetime_date_ok in Hdt. destruct Hdt as [-> Hv]. simpl.
  repeat split; auto; try apply Hv; apply (tm_yday_range _ Hv).
Qed.

Lemma parse_gsod_line_valid_date_witness :
  py_int (slice 14 18 line_2001) = Ok 2001
  /\ py_int (slice 18 20 line_2001) = Ok 3
  /\ py_int (slice 20 22 line_2001) = Ok 1
  /\ valid_date (mkdate 2001 3 1)
  /\ 1 <= tm_yday (mkdate 2001 3 1) <= days_in_year 2001.
Proof.
  apply (parse_gsod_line_valid_date line_2001 (mkdate 2001 3 1)
           (FNum (41 # 2)) (FNum 25) (FNum (-3 # 2))).
  reflexivity.
Defined.

(** X3. In the archive of year [y], two lines dated in the year [y]
    itself get the same key exactly when they carry the same date: the
    table of the two lines has two rows, keyed by [y] and the day of the
    year of each date, and the two keys are equal if and only if the two
    dates are.  (A line dated in another year is keyed by [y] all the
    same, and nothing of the kind holds for it.) *)
Theorem day_of_year_tells_date (y : Z) (l1 l2 : string) (d1 d2 : date)
    (a1 b1 c1 a2 b2 c2 : pyfloat) :
  parse_gsod_line l1 = Ok (d1, a1, b1, c1) ->
  parse_gsod_line l2 = Ok (d2, a2, b2, c2) ->
  year d1 = y -> year d2 = y ->
  exists r1 r2,
    pandas_DataFrame (fst (get_wban_lines y [l1; l2] no_columns []))
    = [r1; r2]
    /\ row_key r1 = (y, tm_yday d1) /\ row_key r2 = (y, tm_yday d2)
    /\ (row_key r1 = row_key r2 <-> d1 = d2).
Proof.
  intros H1 H2 Y1 Y2.
  exists (mkRow y (tm_yday d1) a1 b1 c1), (mkRow y (tm_yday d2) a2 b2 c2).
  split; [|split; [reflexivity|split; [reflexivity|]]].
  - cbn [get_wban_lines]. rewrite H1, H2. reflexivity.
  - unfold row_key; cbn [row_year row_doy]. split.
    + intros E. inversion E as [E'].
      destruct (parse_gsod_line_date _ _ _ _ _ H1)
        as (? & ? & ? & _ & _ & _ & E1).
      destruct (parse_gsod_line_date _ _ _ _ _ H2)
        as (? & ? & ? & _ & _ & _ & E2).
      apply datetime_date_ok in E1, E2.
      apply tm_yday_injective; try tauto. congruence.
    + intros ->. reflexivity.
Qed.

(** 1 and 2 January 2000 in the archive of 2000: two rows, and the keys
    differ as the dates do. *)
Lemma day_of_year_tells_date_witness :
  exists r1 r2,
    pandas_DataFrame
      (fst (get_wban_lines 2000 [line_jan1; line_jan2_missing]
                           no_columns []))
    = [r1; r2]
    /\ row_key r1 = (2000, tm_yday (mkdate 2000 1 1))
    /\ row_key r2 = (2000, tm_yday (mkdate 2000 1 2))
    /\ (row_key r1 = row_key r2 <-> mkdate 2000 1 1 = mkdate 2000 1 2).
Proof.
  apply (day_of_year_tells_date 2000 line_jan1 line_jan2_missing
           (mkdate 2000 1 1) (mkdate 2000 1 2)
           (FNum 10) (FNum 15) (FNum 5) (FNum 11) FNaN (FNum 6));
    reflexivity.
Defined.

(** ** What the table holds *)

Lemma parse_gsod_line_below (line : string) d a b c :
  parse_gsod_line line = Ok (d, a, b, c) ->
  below_sentinel a /\ below_sentinel b /\ below_sentinel c.
Proof.
  unfold parse_gsod_line.
  destruct (py_float (slice 25 30 line)) as [vm|]; [|discriminate].
  destruct (py_float (slice 102 108 line)) as [vx|]; [|discriminate].
  destruct (py_float (slice 110 116 line)) as [vn|]; [|discriminate].
  cbn [bind].
  destruct (py_int (slice 14 18 line)); [|discriminate].
  destruct (py_int (slice 18 20 line)); [|discriminate].
  destruct (py_int (slice 20 22 line)); [|discriminate].
  cbn [bind].
  destruct (datetime_date v v0 v1); [|discriminate].
  cbn [bind]. intros H. inversion H; subst.
  repeat split; apply sentinel_ok.
Qed.

Lemma rows_of_line_from (y : Z) (lines : list string) :
  Forall (row_from_line y) (flat_map (rows_of_line y) lines).
Proof.
  apply Forall_forall. intros r Hr. apply in_flat_map in Hr.
  destruct Hr as (line & _ & Hr). unfold rows_of_line in Hr.
  destruct (parse_gsod_line line) as [[[[d a] b] c]|] eqn:E; [|contradiction].
  destruct Hr as [<-|[]]. split; [reflexivity|].
  exists line, d. auto.
Qed.

Lemma get_wban_years_ok (fetch : string -> result string)
    (sh : StationHistory) (years : list Z) :
  forall acc log acc' log',
    get_wban_years fetch sh years acc log = (Ok acc', log') ->
    wf_columns acc ->
    wf_columns acc'
    /\ exists rows,
         pandas_DataFrame acc' = (pandas_DataFrame acc ++ rows)%list
         /\ Forall (fun r => exists y, In y years /\ row_from_line y r) rows.
Proof.
  induction years as [|y years IH]; intros acc log acc' log' H Hwf.
  - simpl in H. inversion H; subst. split; [exact Hwf|].
    exists []. rewrite app_nil_r. auto.
  - cbn [get_wban_years] in H.
    destruct (url <- archive_url (sh_usaf sh) (sh_wban sh) y ;; fetch url)
      as [content|e]; [|discriminate].
    destruct (get_wban_lines_spec y (tl (split_nl content)) acc log Hwf)
      as (acc1 & Heq1 & Hwf1 & Hdf1).
    rewrite Heq1 in H.
    destruct (IH _ _ _ _ H Hwf1) as (Hwf' & rows & Hdf & Hall).
    split; [exact Hwf'|].
    exists (flat_map (rows_of_line y) (tl (split_nl content)) ++ rows)%list.
    split; [rewrite Hdf, Hdf1, <- app_assoc; reflexivity|].
    apply Forall_app. split.
    + eapply Forall_impl; [|apply rows_of_line_from].
      intros r Hr. exists y. split; [now left|exact Hr].
    + eapply Forall_impl; [|exact Hall].
      intros r (y' & Hy' & Hr). exists y'. split; [now right|exact Hr].
Qed.

Lemma xrange_in (a b y : Z) : In y (xrange a b) <-> a <= y < b.
Proof.
  unfold xrange. rewrite in_map_iff. split.
  - intros (i & <- & Hi). apply in_seq in Hi. lia.
  - intros H. exists (Z.to_nat (y - a)). split; [lia|].
    apply in_seq. lia.
Qed.

Lemma days_in_year_le (y : Z) : days_in_year y <= 366.
Proof. unfold days_in_year. destruct (is_leap y); lia. Qed.

(** X4. Every row of a table [get_wban] returns lies in the year range
    of the matched record, has a day of the year between 1 and 366, and
    holds no temperature at or above the sentinel 9000. *)
Theorem get_wban_rows_invariant (fetch : string -> result string)
    (wban : Z) (station_histories : list StationHistory)
    (table : DataFrame) (log : list string) :
  get_wban fetch wban station_histories = (Ok table, log) ->
  exists sh b e,
    find_wban wban station_histories = Some sh
    /\ sh_begin sh = Some b /\ sh_end sh = Some e
    /\ Forall (fun r => year b <= row_year r <= year e
                        /\ 1 <= row_doy r <= 366
                        /\ below_sentinel (t_mean r)
                        /\ below_sentinel (t_max r)
                        /\ below_sentinel (t_min r)) table.
Proof.
  unfold get_wban.
  destruct (find_wban wban station_histories) as [sh|]; [|discriminate].
  destruct (sh_begin sh) as [b|] eqn:Hb; [|discriminate].
  destruct (sh_end sh) as [e|] eqn:He; [|discriminate].
  cbn [attr_year bind].
  destruct (get_wban_years fetch sh (xrange (year b) (year e + 1))
              no_columns []) as [[c|err] log1] eqn:E; [|discriminate].
  cbn [bind]. intros H. inversion H; subst.
  exists sh, b, e. split; [reflexivity|]. split; [exact Hb|].
  split; [exact He|].
  destruct (get_wban_years_ok _ _ _ _ _ _ _ E wf_no_columns)
    as (_ & rows & Hdf & Hall).
  rewrite Hdf. cbn [pandas_DataFrame no_columns app zip_rows idx_list].
  eapply Forall_impl; [|exact Hall].
  intros r (y & Hy & Hyr & line & d & Hp & Hd).
  apply xrange_in in Hy.
  destruct (parse_gsod_line_below _ _ _ _ _ Hp) as (? & ? & ?).
  destruct (parse_gsod_line_date _ _ _ _ _ Hp) as (? & ? & ? & _ & _ & _ & Hdt).
  apply datetime_date_ok in Hdt. destruct Hdt as [_ Hv].
  pose proof (tm_yday_range d Hv). pose proof (days_in_year_le (year d)).
  repeat split; try assumption; lia.
Qed.

Lemma get_wban_rows_invariant_witness :
  exists sh b e,
    find_wban 12345 [sample_station 2000 2001] = Some sh
    /\ sh_begin sh = Some b /\ sh_end sh = Some e
    /\ Forall (fun r => year b <= row_year r <= year e
                        /\ 1 <= row_doy r <= 366
                        /\ below_sentinel (t_mean r)
                        /\ below_sentinel (t_max r)
                        /\ below_sentinel (t_min r))
         [mkRow 2000 1 (FNum 10) (FNum 15) (FNum 5);
          mkRow 2000 2 (FNum 11) FNaN (FNum 6);
          mkRow 2001 60 (FNum (41 # 2)) (FNum 25) (FNum (-3 # 2))].
Proof.
  apply (get_wban_rows_invariant fetch_two_years 12345
           [sample_station 2000 2001] _
           [warn_line line_feb30; warn_line "not an observation"]).
  reflexivity.
Defined.

(** ** Every line is accounted for *)

Lemma line_accounting (y : Z) (line : string) :
  (List.length (rows_of_line y line) + List.length (warns_of_line line)
   + (if is_empty line then 1 else 0) = 1)%nat.
Proof.
  unfold rows_of_line, warns_of_line.
  destruct line as [|c line].
  - rewrite (short_line_raises "") by (simpl; lia). reflexivity.
  - destruct (parse_gsod_line (String c line)) as [[[[d a] b] k]|];
      reflexivity.
Qed.

(** X5. The loop over an archive accounts for every line exactly once:
    the rows appended, the warnings logged and the empty lines skipped in
    silence add up to the number of lines read. *)
Theorem get_wban_lines_accounting (year : Z) (lines : list string)
    (acc' : columns) (log' : list string) :
  get_wban_lines year lines no_columns [] = (acc', log') ->
  (List.length (pandas_DataFrame acc') + List.length log'
   + count_empty lines = List.length lines)%nat.
Proof.
  intros H.
  destruct (get_wban_lines_spec year lines no_columns [] wf_no_columns)
    as (acc1 & Heq & _ & Hdf).
  rewrite Heq in H. inversion H; subst. rewrite Hdf.
  cbn [pandas_DataFrame no_columns app zip_rows idx_list].
  unfold count_empty. clear. induction lines as [|l ls IH]; [reflexivity|].
  cbn [flat_map filter]. rewrite !length_app.
  pose proof (line_accounting year l) as Hl.
  destruct (is_empty l); simpl List.length; lia.
Qed.

Lemma get_wban_lines_accounting_witness :
  (2 + 1 + count_empty [line_jan1; line_feb30; line_jan2_missing; ""]
   = 4)%nat.
Proof.
  apply (get_wban_lines_accounting 2000
           [line_jan1; line_feb30; line_jan2_missing; ""]
           (mkcolumns [FNum 10; FNum 11] [FNum 15; FNaN] [FNum 5; FNum 6]
                      [(2000, 1); (2000, 2)])
           [warn_line line_feb30]).
  reflexivity.
Defined.

(** ** Archives that cannot be fetched *)

Lemma xrange_nil (a b : Z) : b <= a -> xrange a b = [].
Proof.
  intros H. unfold xrange. replace (Z.to_nat (b - a)) with O by lia.
  reflexivity.
Qed.

Lemma xrange_cons (a b : Z) : a < b -> xrange a b = a :: xrange (a + 1) b.
Proof.
  intros H. unfold xrange.
  replace (Z.to_nat (b - a)) with (S (Z.to_nat (b - (a + 1)))) by lia.
  cbn [seq map]. f_equal; [lia|].
  rewrite <- seq_shift, map_map. apply map_ext. intros i. lia.
Qed.

Lemma xrange_app (a m b : Z) :
  a <= m <= b -> xrange a b = (xrange a m ++ xrange m b)%list.
Proof.
  intros H. remember (Z.to_nat (m - a)) as n eqn:En.
  revert a H En. induction n as [|n IH]; intros a H En.
  - assert (a = m) by lia. subst. rewrite (xrange_nil m m) by lia.
    reflexivity.
  - rewrite (xrange_cons a b), (xrange_cons a m) by lia.
    cbn [app]. f_equal. apply IH; lia.
Qed.

Lemma get_wban_years_app (fetch : string -> result string)
    (sh : StationHistory) (l1 l2 : list Z) :
  forall acc log,
    get_wban_years fetch sh (l1 ++ l2) acc log
    = match get_wban_years fetch sh l1 acc log with
      | (Ok acc1, log1) => get_wban_years fetch sh l2 acc1 log1
      | (Err e, log1) => (Err e, log1)
      end.
Proof.
  induction l1 as [|y l1 IH]; intros acc log; [reflexivity|].
  cbn [app get_wban_years].
  destruct (url <- archive_url (sh_usaf sh) (sh_wban sh) y ;; fetch url);
    [|reflexivity].
  destruct (get_wban_lines y (tl (split_nl v)) acc log) as [acc1 log1].
  apply IH.
Qed.

(** X6. Nothing catches a failed fetch.  When the archives of the years
    before [y0] are fetched and the one of [y0] raises, [get_wban] raises
    the same exception, returns no table, fetches no later year, and has
    logged the warnings of the years before [y0] only. *)
Theorem get_wban_fetch_failure (fetch : string -> result string) (wban : Z)
    (station_histories : list StationHistory) (sh : StationHistory)
    (b e : date) (u : Z) (contents : Z -> string) (y0 : Z) (err : exn) :
  find_wban wban station_histories = Some sh ->
  sh_begin sh = Some b -> sh_end sh = Some e -> sh_usaf sh = Some u ->
  year b <= y0 <= year e ->
  (forall y, year b <= y < y0 ->
             fetch (archive_url_text u wban y) = Ok (contents y)) ->
  fetch (archive_url_text u wban y0) = Err err ->
  get_wban fetch wban station_histories
  = (Err err,
     flat_map (fun y => warns_of_archive (contents y)) (xrange (year b) y0)).
Proof.
  intros Hfind Hb He Hu Hy0 Hf Herr. unfold get_wban.
  rewrite Hfind, Hb, He. cbn [attr_year bind].
  rewrite (xrange_app (year b) y0 (year e + 1)) by lia.
  rewrite (xrange_cons y0 (year e + 1)) by lia.
  rewrite get_wban_years_app.
  pose proof (find_wban_some _ _ _ Hfind) as Hw.
  destruct (get_wban_years_spec fetch sh u wban contents
              (xrange (year b) y0) Hu Hw
              (fun y Hy => Hf y (proj1 (xrange_in _ _ _) Hy))
              no_columns [] wf_no_columns)
    as (acc1 & Heq & _ & _).
  rewrite Heq. cbn [get_wban_years app].
  rewrite Hu, Hw, archive_url_present. cbn [bind]. rewrite Herr.
  reflexivity.
Qed.

(** The archive of 2000 is read, the one of 2001 is missing: the run
    fails, and the malformed line of 2000 has been logged. *)
Lemma get_wban_fetch_failure_witness :
  get_wban fetch_first_year_only 12345 [sample_station 2000 2001]
  = (Err (Exception_ "404"),
     flat_map (fun y => warns_of_archive (contents_two_years y))
              (xrange 2000 2001)).
Proof.
  apply (get_wban_fetch_failure fetch_first_year_only 12345
           [sample_station 2000 2001] (sample_station 2000 2001)
           (mkdate 2000 1 1) (mkdate 2001 12 31) 123456
           contents_two_years 2001 (Exception_ "404"));
    try reflexivity.
  - simpl. lia.
  - simpl. intros y Hy. assert (y = 2000) as -> by lia. reflexivity.
Defined.

(** ** Which addresses are read *)

Lemma get_wban_years_ext (fetch1 fetch2 : string -> result string)
    (sh : StationHistory) (years : list Z) :
  (forall y url, In y years ->
                 archive_url (sh_usaf sh) (sh_wban sh) y = Ok url ->
                 fetch1 url = fetch2 url) ->
  forall acc log,
    get_wban_years fetch1 sh years acc log
    = get_wban_years fetch2 sh years acc log.
Proof.
  induction years as [|y years IH]; intros H acc log; [reflexivity|].
  cbn [get_wban_years].
  destruct (archive_url (sh_usaf sh) (sh_wban sh) y) as [url|e] eqn:E;
    cbn [bind]; [|reflexivity].
  rewrite (H y url (or_introl eq_refl) E).
  destruct (fetch2 url) as [content|e]; [|reflexivity].
  destruct (get_wban_lines y (tl (split_nl content)) acc log) as [acc1 log1].
  apply IH. intros y' url' Hy'. apply H. now right.
Qed.

(** X7. [get_wban] reads the archives of the matched station for the years
    of its range and nothing else: two networks that answer alike at
    those addresses give the same table, the same exception and the same
    log, however they differ elsewhere. *)
Theorem get_wban_reads_range_only (fetch1 fetch2 : string -> result string)
    (wban : Z) (station_histories : list StationHistory) :
  (forall sh b e u y,
      find_wban wban station_histories = Some sh ->
      sh_begin sh = Some b -> sh_end sh = Some e -> sh_usaf sh = Some u ->
      year b <= y <= year e ->
      fetch1 (archive_url_text u wban y) = fetch2 (archive_url_text u wban y)) ->
  get_wban fetch1 wban station_histories
  = get_wban fetch2 wban station_histories.
Proof.
  intros H. unfold get_wban.
  destruct (find_wban wban station_histories) as [sh|] eqn:Hfind;
    [|reflexivity].
  destruct (sh_begin sh) as [b|] eqn:Hb; [|reflexivity].
  destruct (sh_end sh) as [e|] eqn:He; [|reflexivity].
  cbn [attr_year bind].
  rewrite (get_wban_years_ext fetch1 fetch2); [reflexivity|].
  intros y url Hy Hurl. apply xrange_in in Hy.
  rewrite (find_wban_some _ _ _ Hfind) in Hurl.
  destruct (sh_usaf sh) as [u|] eqn:Hu; [|discriminate].
  rewrite archive_url_present in Hurl. inversion Hurl; subst.
  apply (H sh b e u y); auto. lia.
Qed.

Lemma get_wban_reads_range_only_witness :
  get_wban fetch_two_years 12345 [sample_station 2000 2001]
  = get_wban fetch_two_years_or_page 12345 [sample_station 2000 2001].
Proof.
  apply (get_wban_reads_range_only fetch_two_years fetch_two_years_or_page
           12345 [sample_station 2000 2001]).
  intros sh b e u y Hfind Hb He Hu Hy.
  simpl in Hfind. inversion Hfind; subst sh.
  simpl in Hb, He, Hu. inversion Hb; inversion He; inversion Hu; subst.
  simpl in Hy. assert (Hc : y = 2000 \/ y = 2001) by lia.
  destruct Hc as [->| ->]; reflexivity.
Defined.

(** ** The size of the directory *)

Lemma split_nl_length (s : string) :
  List.length (split_nl s) = S (count_nl s).
Proof.
  induction s as [|c s IH]; [reflexivity|].
  cbn [split_nl count_nl]. destruct (Ascii.eqb c "010").
  - simpl. now rewrite IH.
  - destruct (split_nl s); simpl in *; congruence.
Qed.

Lemma split_nl_app_nl (s : string) :
  split_nl (s ++ nl) = (split_nl s ++ [""])%list.
Proof.
  induction s as [|c s IH]; [reflexivity|].
  cbn [append split_nl]. destruct (Ascii.eqb c "010").
  - now rewrite IH.
  - rewrite IH. pose proof (split_nl_length s) as L.
    destruct (split_nl s); [discriminate|reflexivity].
Qed.

(** X8. The directory has one record for each line of the listing past
    the first 22, whatever the lines hold: a listing with [n] newline
    characters gives [n + 1 - 22] records, none when [n < 22].  A listing
    that ends with a newline and has more than 21 of them ends in the
    record of the empty line, whose numeric and date fields are all
    absent. *)
Theorem directory_size :
  (forall ish_text,
      List.length (fst (get_station_histories ish_text))
      = (S (count_nl ish_text) - 22)%nat)
  /\ (forall ish_text,
        (21 <= count_nl ish_text)%nat ->
        exists shs last_sh,
          fst (get_station_histories (ish_text ++ nl))
          = (shs ++ [last_sh])%list
          /\ parse_history_line "" = Ok last_sh /\ all_absent last_sh).
Proof.
  split.
  - intros t. unfold get_station_histories.
    rewrite get_station_histories_loop_eq. cbn [fst app].
    rewrite length_map, length_skipn, split_nl_length. reflexivity.
  - intros t Ht. unfold get_station_histories.
    rewrite get_station_histories_loop_eq. cbn [fst app].
    rewrite split_nl_app_nl, skipn_app.
    replace (22 - List.length (split_nl t))%nat with O
      by (rewrite split_nl_length; lia).
    cbn [skipn]. rewrite map_app. cbn [map].
    exists (map history_fields (skipn 22 (split_nl t))), (history_fields "").
    split; [reflexivity|]. split; [apply parse_history_line_eq|].
    apply history_fields_no_numeric. reflexivity.
Qed.

(** ** Looking a station up *)

Lemma find_wban_split (wban : Z) (shs : list StationHistory) sh :
  find_wban wban shs = Some sh ->
  exists l1 l2,
    shs = (l1 ++ sh :: l2)%list
    /\ forall s, In s l1 -> sh_wban s <> Some wban.
Proof.
  induction shs as [|s shs IH]; simpl; [discriminate|].
  destruct (wban_eq wban (sh_wban s)) eqn:E.
  - intros H. inversion H; subst. exists [], shs. split; [reflexivity|].
    intros s [].
  - intros H. destruct (IH H) as (l1 & l2 & -> & Hl).
    exists (s :: l1), l2. split; [reflexivity|].
    intros s' [<-|Hs']; [|now apply Hl].
    intros Hs. rewrite Hs, wban_eq_true in E. discriminate.
Qed.

(** X10. What the scan returns is a record of the directory that has the
    requested code and that no record with the code comes before; a
    record whose [wban] is absent is never returned.  The scan finds
    nothing exactly when no record has the code. *)
Theorem find_wban_characterised (wban : Z)
    (station_histories : list StationHistory) :
  (forall sh,
      find_wban wban station_histories = Some sh ->
      sh_wban sh = Some wban
      /\ exists l1 l2,
           station_histories = (l1 ++ sh :: l2)%list
           /\ forall s, In s l1 -> sh_wban s <> Some wban)
  /\ (find_wban wban station_histories = None <->
      forall s, In s station_histories -> sh_wban s <> Some wban).
Proof.
  split.
  - intros sh H. split; [eapply find_wban_some; eauto|].
    now apply find_wban_split.
  - split; [|apply find_wban_none].
    induction station_histories as [|a l IH]; simpl; [intros _ s []|].
    destruct (wban_eq wban (sh_wban a)) eqn:E; [discriminate|].
    intros H s [<-|Hs]; [|now apply IH].
    intros Hw. rewrite Hw, wban_eq_true in E. discriminate.
Qed.

Lemma find_wban_characterised_witness :
  sh_wban (sample_station 2000 2001) = Some 12345
  /\ exists l1 l2,
       [sample_station 2000 2001; sample_station 2010 2011]
       = (l1 ++ sample_station 2000 2001 :: l2)%list
       /\ forall s, In s l1 -> sh_wban s <> Some 12345.
Proof.
  apply (proj1 (find_wban_characterised 12345
                  [sample_station 2000 2001; sample_station 2010 2011])).
  reflexivity.
Defined.

Lemma directory_size_witness :
  exists shs last_sh,
    fst (get_station_histories (sample_listing ++ nl))
    = (shs ++ [last_sh])%list
    /\ parse_history_line "" = Ok last_sh /\ all_absent last_sh.
Proof.
  apply (proj2 directory_size sample_listing).
  apply Nat.leb_le. vm_compute. reflexivity.
Defined.

(** X9. Loading and looking up compose.  In a plain listing, the record
    [get_wban] works on for a code is the record of the first line past
    the header whose slice [7:12] reads as that code, whatever the other
    fields of that line and of the lines before it hold: when that
    record has its dates and its [usaf] and the archives of its years
    are fetched, the table [get_wban] returns over the loaded directory
    is the table of these archives. *)
Theorem lookup_in_loaded_directory (fetch : string -> result string)
    (ish_text : string) (wban : Z)
    (l1 : list string) (line : string) (l2 : list string) :
  plain_text ish_text = true ->
  skipn 22 (split_nl ish_text) = (l1 ++ line :: l2)%list ->
  (forall l, In l l1 -> py_int (slice 7 12 l) <> Ok wban) ->
  py_int (slice 7 12 line) = Ok wban ->
  exists sh,
    find_wban wban (fst (get_station_histories ish_text)) = Some sh
    /\ parse_history_line line = Ok sh
    /\ get_wban fetch wban (fst (get_station_histories ish_text))
       = get_wban fetch wban [sh]
    /\ forall b e u contents,
         sh_begin sh = Some b -> sh_end sh = Some e -> sh_usaf sh = Some u ->
         (forall y, year b <= y <= year e ->
                    fetch (archive_url_text u wban y) = Ok (contents y)) ->
         get_wban fetch wban (fst (get_station_histories ish_text))
         = (Ok (flat_map (fun y => rows_of_archive y (contents y))
                         (xrange (year b) (year e + 1))),
            flat_map (fun y => warns_of_archive (contents y))
                     (xrange (year b) (year e + 1))).
Proof.
  intros _ Hl H1 Hline. exists (history_fields line).
  assert (Hw : sh_wban (history_fields line) = Some wban).
  { unfold history_fields, field_int; cbn [sh_wban]. now rewrite Hline. }
  assert (Hfind : find_wban wban (fst (get_station_histories ish_text))
                  = Some (history_fields line)).
  { unfold get_station_histories.
    rewrite get_station_histories_loop_eq. cbn [fst app].
    rewrite Hl, map_app. cbn [map]. apply find_wban_first; [|exact Hw].
    intros s Hs. apply in_map_iff in Hs. destruct Hs as (l & <- & Hin).
    unfold history_fields, field_int; cbn [sh_wban].
    specialize (H1 l Hin). destruct (py_int (slice 7 12 l)); simpl; congruence. }
  split; [exact Hfind|]. split; [apply parse_history_line_eq|]. split.
  - unfold get_wban. rewrite Hfind. cbn [find_wban].
    rewrite Hw, wban_eq_true. reflexivity.
  - intros b e u contents Hb He Hu Hf. unfold get_wban.
    rewrite Hfind, Hb, He. cbn [attr_year bind].
    destruct (get_wban_years_spec fetch (history_fields line) u wban contents
                (xrange (year b) (year e + 1)) Hu Hw
                (fun y Hy => Hf y (proj1 (xrange_inclusive _ _ _) Hy))
                no_columns [] wf_no_columns)
      as (acc' & Heq & _ & Hdf).
    rewrite Heq. cbn [bind app]. rewrite Hdf. reflexivity.
Qed.

(** A blank line, then two lines with code 12345: the table is the one
    of the first of them, 2000 to 2001, with one warning a year. *)
Lemma lookup_in_loaded_directory_witness :
  get_wban fetch_listed 12345 (fst (get_station_histories listing_two_years))
  = (Ok [mkRow 2000 1 (FNum 10) (FNum 15) (FNum 5);
         mkRow 2000 2 (FNum 11) FNaN (FNum 6);
         mkRow 2001 60 (FNum (41 # 2)) (FNum 25) (FNum (-3 # 2))],
     ["Failed to parse line '" ++ line_feb30 ++ "'";
      "Failed to parse line 'not an observation'"]).
Proof.
  destruct (lookup_in_loaded_directory fetch_listed listing_two_years 12345
              [""] (history_line "20000101" "20011231")
              [history_line "19990230" "20121231"])
    as (sh & _ & Hp & _ & Htable).
  - vm_compute. reflexivity.
  - vm_compute. reflexivity.
  - intros l [<-|[]]. vm_compute. discriminate.
  - vm_compute. reflexivity.
  - vm_compute in Hp. injection Hp as <-.
    rewrite (Htable (mkdate 2000 1 1) (mkdate 2001 12 31) 720000
               contents_two_years).
    + vm_compute. reflexivity.
    + reflexivity.
    + reflexivity.
    + reflexivity.
    + simpl. intros y Hy.
      assert (Hc : y = 2000 \/ y = 2001) by lia.
      destruct Hc as [->| ->]; reflexivity.
Defined.

(** ** Dates of the station records *)

Lemma field_date_valid (ys ms ds : string) (d : date) :
  field_date ys ms ds = Some d -> valid_date d.
Proof.
  unfold field_date.
  destruct (py_int ys) as [y|]; [|discriminate].
  destruct (py_int ms) as [m|]; [|discriminate].
  destruct (py_int ds) as [dd|]; [|discriminate].
  destruct (datetime_date y m dd) as [dt|] eqn:E; [|discriminate].
  simpl. intros H. inversion H; subst.
  apply datetime_date_ok in E. tauto.
Qed.

Lemma field_date_no_day (ys ms : string) : field_date ys ms "" = None.
Proof.
  unfold field_date. destruct (py_int ys); [|reflexivity].
  destruct (py_int ms); reflexivity.
Qed.

(** X13. A [begin] or [end] that is present in a station record is a
    calendar date.  A line of at most 89 characters has no [begin] and a
    line of at most 98 characters has no [end], the slice of the day
    being empty. *)
Theorem history_dates (line : string) (sh : StationHistory) :
  parse_history_line line = Ok sh ->
  (forall d, sh_begin sh = Some d -> valid_date d)
  /\ (forall d, sh_end sh = Some d -> valid_date d)
  /\ ((String.length line <= 89)%nat -> sh_begin sh = None)
  /\ ((String.length line <= 98)%nat -> sh_end sh = None).
Proof.
  rewrite parse_history_line_eq. intros H. inversion H; subst.
  unfold history_fields; cbn [sh_begin sh_end].
  split; [intros d; apply field_date_valid|].
  split; [intros d; apply field_date_valid|].
  split; intros Hl; rewrite (slice_past_end _ _ line Hl);
    apply field_date_no_day.
Qed.

Lemma history_dates_witness :
  (forall d, sh_begin (history_fields (history_line "20000101" "2001123"))
             = Some d -> valid_date d)
  /\ (forall d, sh_end (history_fields (history_line "20000101" "2001123"))
                = Some d -> valid_date d)
  /\ ((String.length (history_line "20000101" "2001123") <= 89)%nat ->
      sh_begin (history_fields (history_line "20000101" "2001123")) = None)
  /\ ((String.length (history_line "20000101" "2001123") <= 98)%nat ->
      sh_end (history_fields (history_line "20000101" "2001123")) = None).
Proof.
  apply (history_dates (history_line "20000101" "2001123")).
  reflexivity.
Defined.

(** ** The annual frames, row by row *)

Lemma in_clean_rows (y : Z) (data : DataFrame) (r : Row) :
  In r (clean_rows_of y data)
  <-> In r data /\ row_clean r = true /\ row_year r = y.
Proof.
  unfold clean_rows_of, dropna. rewrite !filter_In, Z.eqb_eq. tauto.
Qed.

Lemma in_annual_frame (agg : list pyfloat -> pyfloat) (data : DataFrame)
    (a : AnnualRow) :
  In a (annual_frame agg (dropna data)) ->
  (exists r, In r data /\ row_clean r = true /\ row_year r = an_year a)
  /\ an_t_mean a = agg (map t_mean (clean_rows_of (an_year a) data))
  /\ an_t_max a = agg (map t_max (clean_rows_of (an_year a) data))
  /\ an_t_min a = agg (map t_min (clean_rows_of (an_year a) data)).
Proof.
  unfold annual_frame. intros H. apply in_map_iff in H.
  destruct H as (y & <- & Hy). cbn [an_year an_t_mean an_t_max an_t_min].
  split; [|repeat split].
  apply group_years_in in Hy. destruct Hy as (r & Hr & <-).
  exists r. unfold dropna in Hr. apply filter_In in Hr. tauto.
Qed.

Section Column.
Variable f : Row -> pyfloat.
Hypothesis f_clean : forall r, row_clean r = true -> not_nan (f r) = true.

Lemma clean_column_has_value (data : DataFrame) (y : Z) :
  (exists r, In r data /\ row_clean r = true /\ row_year r = y) ->
  has_value (map f (clean_rows_of y data)).
Proof.
  intros (r & Hr & Hc & Hy). exists (f r). split; [|now apply f_clean].
  apply in_map. apply in_clean_rows. auto.
Qed.

Lemma clean_column_max (data : DataFrame) (y : Z) :
  (exists r, In r data /\ row_clean r = true /\ row_year r = y) ->
  year_extreme data y f (series_max (map f (clean_rows_of y data))) true.
Proof.
  intros H. apply clean_column_has_value in H.
  destruct (proj1 (series_max_spec _) H) as (_ & Hin & Hall).
  split.
  - apply in_map_iff in Hin. destruct Hin as (r & Hfr & Hr).
    apply in_clean_rows in Hr. exists r. tauto.
  - intros r Hr Hc Hy. apply Hall; [|now apply f_clean].
    apply in_map. apply in_clean_rows. auto.
Qed.

Lemma clean_column_min (data : DataFrame) (y : Z) :
  (exists r, In r data /\ row_clean r = true /\ row_year r = y) ->
  year_extreme data y f (series_min (map f (clean_rows_of y data))) false.
Proof.
  intros H. apply clean_column_has_value in H.
  destruct (proj1 (series_min_spec _) H) as (_ & Hin & Hall).
  split.
  - apply in_map_iff in Hin. destruct Hin as (r & Hfr & Hr).
    apply in_clean_rows in Hr. exists r. tauto.
  - intros r Hr Hc Hy. apply Hall; [|now apply f_clean].
    apply in_map. apply in_clean_rows. auto.
Qed.
End Column.

Lemma clean_t_mean (r : Row) : row_clean r = true -> not_nan (t_mean r) = true.
Proof.
  unfold row_clean. rewrite !andb_true_iff. tauto.
Qed.

Lemma clean_t_max (r : Row) : row_clean r = true -> not_nan (t_max r) = true.
Proof.
  unfold row_clean. rewrite !andb_true_iff. tauto.
Qed.

Lemma clean_t_min (r : Row) : row_clean r = true -> not_nan (t_min r) = true.
Proof.
  unfold row_clean. rewrite !andb_true_iff. tauto.
Qed.

Lemma annual_max_rows (series_mean : list pyfloat -> pyfloat)
    (data : DataFrame) (a : AnnualRow) :
  In a (annual_max (process_data series_mean data)) ->
  year_extreme data (an_year a) t_mean (an_t_mean a) true
  /\ year_extreme data (an_year a) t_max (an_t_max a) true
  /\ year_extreme data (an_year a) t_min (an_t_min a) true.
Proof.
  unfold process_data; cbn [annual_max]. rewrite aggregate_groupby.
  intros H. apply in_annual_frame in H.
  destruct H as (Hex & -> & -> & ->).
  split; [|split]; apply clean_column_max;
    auto using clean_t_mean, clean_t_max, clean_t_min.
Qed.

Lemma annual_min_rows (series_mean : list pyfloat -> pyfloat)
    (data : DataFrame) (a : AnnualRow) :
  In a (annual_min (process_data series_mean data)) ->
  year_extreme data (an_year a) t_mean (an_t_mean a) false
  /\ year_extreme data (an_year a) t_max (an_t_max a) false
  /\ year_extreme data (an_year a) t_min (an_t_min a) false.
Proof.
  unfold process_data; cbn [annual_min]. rewrite aggregate_groupby.
  intros H. apply in_annual_frame in H.
  destruct H as (Hex & -> & -> & ->).
  split; [|split]; apply clean_column_min;
    auto using clean_t_mean, clean_t_max, clean_t_min.
Qed.

(** X14. Each entry of the annual frame of maxima is the value of a row
    of that year with no not-a-number entry, and no such row of the year
    has a larger one; likewise, with smaller, for the frame of minima.
    In particular the entries of these two frames are numbers. *)
Theorem annual_extremes_attained (series_mean : list pyfloat -> pyfloat)
    (data : DataFrame) (a : AnnualRow) :
  (In a (annual_max (process_data series_mean data)) ->
   year_extreme data (an_year a) t_mean (an_t_mean a) true
   /\ year_extreme data (an_year a) t_max (an_t_max a) true
   /\ year_extreme data (an_year a) t_min (an_t_min a) true)
  /\ (In a (annual_min (process_data series_mean data)) ->
      year_extreme data (an_year a) t_mean (an_t_mean a) false
      /\ year_extreme data (an_year a) t_max (an_t_max a) false
      /\ year_extreme data (an_year a) t_min (an_t_min a) false).
Proof.
  split; [apply annual_max_rows|apply annual_min_rows].
Qed.

Lemma annual_extremes_attained_witness :
  year_extreme sample_table 2000 t_mean (FNum 10) true
  /\ year_extreme sample_table 2000 t_max (FNum 15) true
  /\ year_extreme sample_table 2000 t_min (FNum 5) true.
Proof.
  apply (proj1 (annual_extremes_attained mean_of_one sample_table
                  (mkAnnualRow 2000 (FNum 10) (FNum 15) (FNum 5)))).
  left. reflexivity.
Defined.

(** X15. The records printed bound the annual frames: no annual maximum
    of [t_max] exceeds the record high, none of [t_mean] the record high
    mean, and no annual minimum of [t_min] or of [t_mean] is below the
    record low or the record low mean. *)
Theorem records_bound_annual (series_mean : list pyfloat -> pyfloat)
    (data : DataFrame) (a : AnnualRow) :
  (In a (annual_max (process_data series_mean data)) ->
   fle (an_t_max a) (record_high (process_data series_mean data)) = true
   /\ fle (an_t_mean a) (record_high_mean (process_data series_mean data))
      = true)
  /\ (In a (annual_min (process_data series_mean data)) ->
      fle (record_low (process_data series_mean data)) (an_t_min a) = true
      /\ fle (record_low_mean (process_data series_mean data)) (an_t_mean a)
         = true).
Proof.
  split; intros H.
  - destruct (annual_max_rows series_mean data a H)
      as (((r1 & Hr1 & Hc1 & _ & E1) & _) & ((r2 & Hr2 & Hc2 & _ & E2) & _) & _).
    rewrite <- E1, <- E2. unfold process_data;
      cbn [record_high record_high_mean].
    split.
    + apply (proj1 (series_max_spec (map t_max data)));
        [exists (t_max r2)| |]; auto using in_map, clean_t_max.
    + apply (proj1 (series_max_spec (map t_mean data)));
        [exists (t_mean r1)| |]; auto using in_map, clean_t_mean.
  - destruct (annual_min_rows series_mean data a H)
      as (((r1 & Hr1 & Hc1 & _ & E1) & _) & _ & ((r3 & Hr3 & Hc3 & _ & E3) & _)).
    rewrite <- E1, <- E3. unfold process_data;
      cbn [record_low record_low_mean].
    split.
    + apply (proj1 (series_min_spec (map t_min data)));
        [exists (t_min r3)| |]; auto using in_map, clean_t_min.
    + apply (proj1 (series_min_spec (map t_mean data)));
        [exists (t_mean r1)| |]; auto using in_map, clean_t_mean.
Qed.

Lemma records_bound_annual_witness :
  fle (FNum 15) (record_high (process_data mean_of_one sample_table)) = true
  /\ fle (FNum 10) (record_high_mean (process_data mean_of_one sample_table))
     = true.
Proof.
  apply (proj1 (records_bound_annual mean_of_one sample_table
                  (mkAnnualRow 2000 (FNum 10) (FNum 15) (FNum 5)))).
  left. reflexivity.
Defined.

(** X16. The records are taken over all rows, the annual frames over the
    clean rows only.  A row with a not-a-number entry changes no annual
    frame, not even through its entries that are numbers; yet each of its
    numbers counts towards the records. *)
Theorem partial_rows (series_mean : list pyfloat -> pyfloat)
    (data : DataFrame) (r : Row) :
  (row_clean r = false ->
   annual_mean (process_data series_mean (data ++ [r])%list)
   = annual_mean (process_data series_mean data)
   /\ annual_max (process_data series_mean (data ++ [r])%list)
      = annual_max (process_data series_mean data)
   /\ annual_min (process_data series_mean (data ++ [r])%list)
      = annual_min (process_data series_mean data))
  /\ (not_nan (t_max r) = true ->
      fle (t_max r) (record_high (process_data series_mean (data ++ [r])%list))
      = true)
  /\ (not_nan (t_mean r) = true ->
      fle (t_mean r)
          (record_high_mean (process_data series_mean (data ++ [r])%list))
      = true
      /\ fle (record_low_mean (process_data series_mean (data ++ [r])%list))
             (t_mean r)
         = true)
  /\ (not_nan (t_min r) = true ->
      fle (record_low (process_data series_mean (data ++ [r])%list)) (t_min r)
      = true).
Proof.
  assert (Hin : In r (data ++ [r])%list) by (apply in_or_app; right; now left).
  split; [|split; [|split]].
  - intros Hc. unfold process_data; cbn [annual_mean annual_max annual_min].
    assert (E : dropna (data ++ [r])%list = dropna data).
    { unfold dropna. rewrite filter_app. cbn [filter]. rewrite Hc.
      apply app_nil_r. }
    rewrite E. auto.
  - intros Hn. unfold process_data; cbn [record_high].
    apply (proj1 (series_max_spec (map t_max (data ++ [r])%list)));
      [exists (t_max r)| |]; auto using in_map.
  - intros Hn. unfold process_data; cbn [record_high_mean record_low_mean].
    split.
    + apply (proj1 (series_max_spec (map t_mean (data ++ [r])%list)));
        [exists (t_mean r)| |]; auto using in_map.
    + apply (proj1 (series_min_spec (map t_mean (data ++ [r])%list)));
        [exists (t_mean r)| |]; auto using in_map.
  - intros Hn. unfold process_data; cbn [record_low].
    apply (proj1 (series_min_spec (map t_min (data ++ [r])%list)));
      [exists (t_min r)| |]; auto using in_map.
Qed.

(** A day whose maximum is missing: its mean of 30 is the record high
    mean, and the annual frames are those of the table without it. *)
Lemma partial_rows_witness :
  (annual_mean (process_data mean_of_one (sample_table
                                ++ [mkRow 2000 2 (FNum 30) FNaN (FNum 6)])%list)
   = annual_mean (process_data mean_of_one sample_table)
   /\ annual_max (process_data mean_of_one (sample_table
                                  ++ [mkRow 2000 2 (FNum 30) FNaN (FNum 6)])%list)
      = annual_max (process_data mean_of_one sample_table)
   /\ annual_min (process_data mean_of_one (sample_table
                                  ++ [mkRow 2000 2 (FNum 30) FNaN (FNum 6)])%list)
      = annual_min (process_data mean_of_one sample_table))
  /\ fle (FNum 30)
         (record_high_mean
            (process_data mean_of_one (sample_table
                             ++ [mkRow 2000 2 (FNum 30) FNaN (FNum 6)])%list))
     = true.
Proof.
  split.
  - apply (proj1 (partial_rows mean_of_one sample_table
                    (mkRow 2000 2 (FNum 30) FNaN (FNum 6)))).
    reflexivity.
  - apply (proj1 (proj1 (proj2 (proj2 (partial_rows mean_of_one sample_table
                    (mkRow 2000 2 (FNum 30) FNaN (FNum 6))))) eq_refl)).
Defined.

(** ** Formatting and parsing integers *)

Ltac digit_step c k IH :=
  cbn [NilEmpty.string_of_uint read_digits uint_val Decimal.nb_digits
       all_digits];
  change (is_digit c) with true; cbv iota;
  change (digit_val c) with k.

Lemma read_digits_uint (d : Decimal.uint) :
  forall acc n,
    read_digits acc n (NilEmpty.string_of_uint d)
    = (uint_val d acc, (n + Decimal.nb_digits d)%nat, "").
Proof.
  induction d as [|d IH|d IH|d IH|d IH|d IH|d IH|d IH|d IH|d IH|d IH];
    intros acc n.
  - cbn. now rewrite Nat.add_0_r.
  - digit_step "0"%char 0 IH. rewrite IH. f_equal. f_equal. lia.
  - digit_step "1"%char 1 IH. rewrite IH. f_equal. f_equal. lia.
  - digit_step "2"%char 2 IH. rewrite IH. f_equal. f_equal. lia.
  - digit_step "3"%char 3 IH. rewrite IH. f_equal. f_equal. lia.
  - digit_step "4"%char 4 IH. rewrite IH. f_equal. f_equal. lia.
  - digit_step "5"%char 5 IH. rewrite IH. f_equal. f_equal. lia.
  - digit_step "6"%char 6 IH. rewrite IH. f_equal. f_equal. lia.
  - digit_step "7"%char 7 IH. rewrite IH. f_equal. f_equal. lia.
  - digit_step "8"%char 8 IH. rewrite IH. f_equal. f_equal. lia.
  - digit_step "9"%char 9 IH. rewrite IH. f_equal. f_equal. lia.
Qed.

Lemma all_digits_uint (d : Decimal.uint) :
  all_digits (NilEmpty.string_of_uint d) = true.
Proof.
  induction d; cbn [NilEmpty.string_of_uint all_digits]; auto.
Qed.

Lemma pos_of_uint_acc_val (d : Decimal.uint) :
  forall p, Z.pos (Pos.of_uint_acc d p) = uint_val d (Z.pos p).
Proof.
  induction d as [|d IH|d IH|d IH|d IH|d IH|d IH|d IH|d IH|d IH|d IH];
    intros p; cbn [Pos.of_uint_acc uint_val]; [reflexivity|..];
    rewrite IH; f_equal; lia.
Qed.

Lemma pos_of_uint_val (d : Decimal.uint) :
  Z.of_N (Pos.of_uint d) = uint_val d 0.
Proof.
  induction d as [|d IH|d IH|d IH|d IH|d IH|d IH|d IH|d IH|d IH|d IH];
    cbn [Pos.of_uint uint_val]; [reflexivity|exact IH|..];
    cbn [Z.of_N]; apply pos_of_uint_acc_val.
Qed.

Lemma uint_val_to_uint (n : N) : uint_val (N.to_uint n) 0 = Z.of_N n.
Proof.
  rewrite <- pos_of_uint_val. change (Pos.of_uint ?d) with (N.of_uint d).
  now rewrite DecimalN.Unsigned.of_to.
Qed.

Lemma read_digits_of (z : Z) (n : nat) :
  exists k,
    read_digits 0 n (digits_of z) = (Z.abs z, S k, "")
    /\ all_digits (digits_of z) = true
    /\ digits_of z <> "".
Proof.
  unfold digits_of. pose proof (uint_val_to_uint (Z.abs_N z)) as Hv.
  rewrite N2Z.inj_abs_N in Hv.
  destruct (N.to_uint (Z.abs_N z)) as [|d|d|d|d|d|d|d|d|d|d] eqn:E.
  - exists n. cbn in Hv |- *. rewrite <- Hv. repeat split. discriminate.
  - exists (n + Decimal.nb_digits d)%nat.
    unfold NilZero.string_of_uint. rewrite read_digits_uint, Hv.
    split; [cbn [Decimal.nb_digits]; f_equal; f_equal; lia|].
    split; [apply all_digits_uint|discriminate].
  - exists (n + Decimal.nb_digits d)%nat.
    unfold NilZero.string_of_uint. rewrite read_digits_uint, Hv.
    split; [cbn [Decimal.nb_digits]; f_equal; f_equal; lia|].
    split; [apply all_digits_uint|discriminate].
  - exists (n + Decimal.nb_digits d)%nat.
    unfold NilZero.string_of_uint. rewrite read_digits_uint, Hv.
    split; [cbn [Decimal.nb_digits]; f_equal; f_equal; lia|].
    split; [apply all_digits_uint|discriminate].
  - exists (n + Decimal.nb_digits d)%nat.
    unfold NilZero.string_of_uint. rewrite read_digits_uint, Hv.
    split; [cbn [Decimal.nb_digits]; f_equal; f_equal; lia|].
    split; [apply all_digits_uint|discriminate].
  - exists (n + Decimal.nb_digits d)%nat.
    unfold NilZero.string_of_uint. rewrite read_digits_uint, Hv.
    split; [cbn [Decimal.nb_digits]; f_equal; f_equal; lia|].
    split; [apply all_digits_uint|discriminate].
  - exists (n + Decimal.nb_digits d)%nat.
    unfold NilZero.string_of_uint. rewrite read_digits_uint, Hv.
    split; [cbn [Decimal.nb_digits]; f_equal; f_equal; lia|].
    split; [apply all_digits_uint|discriminate].
  - exists (n + Decimal.nb_digits d)%nat.
    unfold NilZero.string_of_uint. rewrite read_digits_uint, Hv.
    split; [cbn [Decimal.nb_digits]; f_equal; f_equal; lia|].
    split; [apply all_digits_uint|discriminate].
  - exists (n + Decimal.nb_digits d)%nat.
    unfold NilZero.string_of_uint. rewrite read_digits_uint, Hv.
    split; [cbn [Decimal.nb_digits]; f_equal; f_equal; lia|].
    split; [apply all_digits_uint|discriminate].
  - exists (n + Decimal.nb_digits d)%nat.
    unfold NilZero.string_of_uint. rewrite read_digits_uint, Hv.
    split; [cbn [Decimal.nb_digits]; f_equal; f_equal; lia|].
    split; [apply all_digits_uint|discriminate].
  - exists (n + Decimal.nb_digits d)%nat.
    unfold NilZero.string_of_uint. rewrite read_digits_uint, Hv.
    split; [cbn [Decimal.nb_digits]; f_equal; f_equal; lia|].
    split; [apply all_digits_uint|discriminate].
Qed.

Lemma read_digits_zeros (k : nat) :
  forall n s, read_digits 0 n (zeros k ++ s) = read_digits 0 (n + k) s.
Proof.
  induction k as [|k IH]; intros n s.
  - now rewrite Nat.add_0_r.
  - cbn [zeros append read_digits]. change (is_digit "0") with true.
    cbv iota. change (10 * 0 + digit_val "0") with 0.
    rewrite IH. f_equal. lia.
Qed.

Lemma digit_leads (c : ascii) (t : string) :
  is_digit c = true ->
  lstrip (String c t) = String c t
  /\ read_sign (String c t) = (false, String c t).
Proof.
  destruct c as [[] [] [] [] [] [] [] []]; try discriminate; intros _;
    split; reflexivity.
Qed.

Lemma all_digits_app (a b : string) :
  all_digits a = true -> all_digits b = true -> all_digits (a ++ b) = true.
Proof.
  induction a as [|c a IH]; simpl; [auto|].
  intros H Hb. apply andb_true_iff in H. destruct H as [Hc Ha].
  rewrite Hc. simpl. auto.
Qed.

Lemma all_digits_zeros (k : nat) : all_digits (zeros k) = true.
Proof. induction k; simpl; auto. Qed.

Lemma format_body_digits (w : nat) (z : Z) :
  all_digits (format_body w z) = true
  /\ exists c t, format_body w z = String c t /\ is_digit c = true.
Proof.
  destruct (read_digits_of z 0) as (k & _ & Hd & Hne).
  assert (Hall : all_digits (format_body w z) = true).
  { unfold format_body. apply all_digits_app; [apply all_digits_zeros|auto]. }
  split; [exact Hall|].
  destruct (format_body w z) as [|c t] eqn:E.
  - exfalso. unfold format_body in E.
    destruct (zeros _); [|discriminate]. simpl in E. contradiction.
  - exists c, t. split; [reflexivity|].
    simpl in Hall. apply andb_true_iff in Hall. tauto.
Qed.

Lemma format_0d_body (w : nat) (z : Z) :
  format_0d w z = (if z <? 0 then "-" else "") ++ format_body w z.
Proof. reflexivity. Qed.

Lemma read_format_body (w : nat) (z : Z) :
  exists k, read_digits 0 0 (format_body w z) = (Z.abs z, S k, "").
Proof.
  unfold format_body. rewrite read_digits_zeros.
  destruct (read_digits_of z (0 + (w - String.length
                                        (if z <? 0 then "-" else "")
                                      - String.length (digits_of z))))
    as (k & Hk & _). eauto.
Qed.

Lemma py_int_signed (neg : bool) (body : string) (v : Z) (k : nat) :
  (exists c t, body = String c t /\ is_digit c = true) ->
  read_digits 0 0 body = (v, S k, "") ->
  py_int ((if neg then "-" else "") ++ body)
  = Ok (if neg then - v else v).
Proof.
  intros (c & t & -> & Hc) Hr. unfold py_int. destruct neg.
  - cbn [append lstrip]. change (is_space "-") with false. cbv iota.
    change (read_sign (String "-" (String c t))) with (true, String c t).
    cbv iota beta. rewrite Hr. reflexivity.
  - cbn [append]. destruct (digit_leads c t Hc) as [-> ->].
    cbv iota beta. rewrite Hr. reflexivity.
Qed.

Lemma py_int_format_0d (w : nat) (z : Z) : py_int (format_0d w z) = Ok z.
Proof.
  rewrite format_0d_body.
  destruct (read_format_body w z) as (k & Hk).
  rewrite (py_int_signed (z <? 0) _ _ _ (proj2 (format_body_digits w z)) Hk).
  f_equal. destruct (z <? 0) eqn:E; [apply Z.ltb_lt in E|apply Z.ltb_ge in E];
    lia.
Qed.

Lemma digits_lead (z : Z) :
  exists c t, digits_of z = String c t /\ is_digit c = true.
Proof.
  destruct (read_digits_of z 0) as (k & _ & Hd & Hne).
  destruct (digits_of z) as [|c t]; [contradiction|].
  exists c, t. split; [reflexivity|].
  simpl in Hd. apply andb_true_iff in Hd. tauto.
Qed.

Lemma py_int_format_s (z : Z) : py_int (format_s z) = Ok z.
Proof.
  unfold format_s.
  destruct (read_digits_of z 0) as (k & Hk & _).
  rewrite (py_int_signed (z <? 0) _ _ _ (digits_lead z) Hk).
  f_equal. destruct (z <? 0) eqn:E; [apply Z.ltb_lt in E|apply Z.ltb_ge in E];
    lia.
Qed.

Lemma length_append (a b : string) :
  String.length (a ++ b) = (String.length a + String.length b)%nat.
Proof. induction a; simpl; auto. Qed.

Lemma length_zeros (k : nat) : String.length (zeros k) = k.
Proof. induction k; simpl; auto. Qed.

(** X11. What [%0<w>d] and [%s] write of an integer, [int] reads back as
    that integer, sign and padding included; and [%0<w>d] writes at least
    [w] characters. *)
Theorem format_then_parse :
  (forall w z, py_int (format_0d w z) = Ok z)
  /\ (forall z, py_int (format_s z) = Ok z)
  /\ (forall w z, (w <= String.length (format_0d w z))%nat).
Proof.
  split; [exact py_int_format_0d|]. split; [exact py_int_format_s|].
  intros w z. unfold format_0d. rewrite !length_append, length_zeros. lia.
Qed.

(** ** The address of an archive tells the station and the year *)

Lemma append_inv_head (s a b : string) : s ++ a = s ++ b -> a = b.
Proof.
  induction s as [|c s IH]; simpl; [auto|].
  intros H. inversion H. auto.
Qed.

Lemma digits_sep_inj (d : string) :
  forall d' c r c' r',
    all_digits d = true -> all_digits d' = true ->
    is_digit c = false -> is_digit c' = false ->
    d ++ String c r = d' ++ String c' r' ->
    d = d' /\ String c r = String c' r'.
Proof.
  induction d as [|x d IH]; intros d' c r c' r' Hd Hd' Hc Hc' H.
  - destruct d' as [|x' d']; [auto|].
    simpl in H, Hd'. inversion H; subst.
    apply andb_true_iff in Hd'. destruct Hd' as [Hx _]. congruence.
  - destruct d' as [|x' d'].
    + simpl in H, Hd. inversion H; subst.
      apply andb_true_iff in Hd. destruct Hd as [Hx _]. congruence.
    + simpl in H, Hd, Hd'. inversion H; subst.
      apply andb_true_iff in Hd, Hd'.
      destruct (IH d' c r c' r') as [-> E]; tauto || auto.
Qed.

Lemma format_sep_inj (w w' : nat) (z z' : Z) (c c' : ascii) (r r' : string) :
  is_digit c = false -> is_digit c' = false ->
  format_0d w z ++ String c r = format_0d w' z' ++ String c' r' ->
  z = z' /\ String c r = String c' r'.
Proof.
  intros Hc Hc' H.
  assert (E : format_0d w z = format_0d w' z' /\ String c r = String c' r').
  { rewrite !format_0d_body in *.
    destruct (format_body_digits w z) as (Ha & x & t & Hb & Hx).
    destruct (format_body_digits w' z') as (Ha' & x' & t' & Hb' & Hx').
    destruct (z <? 0), (z' <? 0); cbn [append] in H |- *.
    - inversion H as [H1].
      destruct (digits_sep_inj _ _ _ _ _ _ Ha Ha' Hc Hc' H1) as [-> ->]. auto.
    - rewrite Hb' in H. inversion H; subst. discriminate.
    - rewrite Hb in H. inversion H; subst. discriminate.
    - destruct (digits_sep_inj _ _ _ _ _ _ Ha Ha' Hc Hc' H) as [-> ->]. auto. }
  destruct E as [E1 E2]. split; [|exact E2].
  pose proof (py_int_format_0d w z) as P. rewrite E1, py_int_format_0d in P.
  congruence.
Qed.

Lemma archive_url_text_shape (u w y : Z) :
  archive_url_text u w y
  = ROOT ++ String "/" (format_0d 4 y ++ String "/"
      (format_0d 6 u ++ String "-" (format_0d 5 w ++ String "-"
         (format_0d 4 y ++ String "." "op.gz")))).
Proof. reflexivity. Qed.

(** X12. The address of an archive tells the station numbers and the
    year: two archives with the same address have the same [usaf], the
    same [wban] and the same year, so distinct years of a station are
    never fetched from one address. *)
Theorem archive_url_injective (u w y u' w' y' : Z) :
  archive_url_text u w y = archive_url_text u' w' y' ->
  u = u' /\ w = w' /\ y = y'.
Proof.
  rewrite !archive_url_text_shape. intros H.
  apply append_inv_head in H. inversion H as [H1]. clear H.
  apply format_sep_inj in H1; [|reflexivity|reflexivity].
  destruct H1 as [Hy H1]. inversion H1 as [H2]. clear H1.
  apply format_sep_inj in H2; [|reflexivity|reflexivity].
  destruct H2 as [Hu H2]. inversion H2 as [H3]. clear H2.
  apply format_sep_inj in H3; [|reflexivity|reflexivity].
  tauto.
Qed.

Lemma archive_url_injective_witness :
  123456 = 123456 /\ 12345 = 12345 /\ 1999 = 1999.
Proof.
  apply (archive_url_injective 123456 12345 1999 123456 12345 1999).
  reflexivity.
Defined.

(** ** The exit code *)

Lemma get_station_histories_eq (text : string) :
  get_station_histories text
  = (map history_fields (skipn 22 (split_nl text)), []).
Proof.
  unfold get_station_histories. now rewrite get_station_histories_loop_eq.
Qed.

(** X17. Once the cache is set up and the listing fetched, a run
    without a station ends with code 0, whatever the listing holds, and
    reads no archive; of its own messages it logs the closing one at the
    verbose level and none otherwise.  A run ends with code -1, the
    critical message being the last it logs, when the cache cannot be
    set up, when the listing cannot be fetched, when the argument is not
    an integer, when no line of a plain listing past the header has the
    code in its slice [7:12], and whenever [get_wban] raises; at either
    level of verbosity. *)
Theorem main_exit_code (text : string) (fetch : string -> result string)
    (series_mean : list pyfloat -> pyfloat) (show : Report -> result unit)
    (verbose : bool) :
  main (Ok tt) (Ok text) fetch series_mean show verbose None
  = (0, if verbose then ["Exiting normally."] else [])
  /\ (forall e ish args_wban,
        main (Err e) ish fetch series_mean show verbose args_wban
        = (-1, ["Exiting due to error"]))
  /\ (forall e args_wban,
        main (Ok tt) (Err e) fetch series_mean show verbose args_wban
        = (-1, ["Exiting due to error"]))
  /\ (forall a e,
        py_int a = Err e ->
        main (Ok tt) (Ok text) fetch series_mean show verbose (Some a)
        = (-1, ["Exiting due to error"]))
  /\ (forall a wban,
        plain_text text = true ->
        py_int a = Ok wban ->
        (forall l, In l (skipn 22 (split_nl text)) ->
                   py_int (slice 7 12 l) <> Ok wban) ->
        main (Ok tt) (Ok text) fetch series_mean show verbose (Some a)
        = (-1, ["Exiting due to error"]))
  /\ (forall a wban e log,
        py_int a = Ok wban ->
        get_wban fetch wban (fst (get_station_histories text)) = (Err e, log) ->
        main (Ok tt) (Ok text) fetch series_mean show verbose (Some a)
        = (-1, (log ++ ["Exiting due to error"])%list)).
Proof.
  unfold main. rewrite get_station_histories_eq. cbn [fst].
  split; [destruct verbose; reflexivity|].
  split; [reflexivity|]. split; [reflexivity|].
  split; [|split].
  - intros a e ->. reflexivity.
  - intros a wban _ -> H. unfold get_wban.
    rewrite find_wban_none; [reflexivity|].
    intros s Hs. apply in_map_iff in Hs. destruct Hs as (l & <- & Hl).
    unfold history_fields, field_int; cbn [sh_wban].
    specialize (H l Hl). destruct (py_int (slice 7 12 l)); simpl; congruence.
  - intros a wban e log -> ->. reflexivity.
Qed.

(** At the verbose level: a station given by name, and a code the sample
    listing does not hold. *)
Lemma main_exit_code_witness :
  main (Ok tt) (Ok sample_listing) fetch_two_years mean_of_one
       (fun _ => Ok tt) true (Some "KBTV")
  = (-1, ["Exiting due to error"])
  /\ main (Ok tt) (Ok sample_listing) fetch_two_years mean_of_one
          (fun _ => Ok tt) true (Some "54321")
     = (-1, ["Exiting due to error"]).
Proof.
  split.
  - apply (proj1 (proj2 (proj2 (proj2
             (main_exit_code sample_listing fetch_two_years mean_of_one
                (fun _ => Ok tt) true)))) "KBTV" ValueError).
    reflexivity.
  - apply (proj1 (proj2 (proj2 (proj2 (proj2
             (main_exit_code sample_listing fetch_two_years mean_of_one
                (fun _ => Ok tt) true))))) "54321" 54321).
    + vm_compute. reflexivity.
    + reflexivity.
    + intros l Hl. vm_compute in Hl.
      destruct Hl as [<-|[<-|[]]]; vm_compute; discriminate.
Defined.
